(** * USBD480 USB display framebuffer driver (usbd480fb.c)

    A shallow embedding of the driver: the session record [struct usbd480],
    the four control-channel helpers, the brightness attribute, the periodic
    refresh work function, and the attach / detach paths.

    Every call the driver makes into the kernel is recorded as an [event];
    the outcome of a call that the driver cannot determine (a transfer
    result, an allocation) is read from an environment record.  C integers
    are [Z] with the conversions of the source written out. *)

From Stdlib Require Import ZArith List Bool Lia String Ascii.
Import ListNotations.
Open Scope Z_scope.

(** ** C integer conversions *)

Definition to_u8 (x : Z) : Z := x mod 2 ^ 8.
Definition to_u16 (x : Z) : Z := x mod 2 ^ 16.

(** [unsigned int] *)
Definition to_uint (x : Z) : Z := x mod 2 ^ 32.

(** [int]: the value congruent modulo 2^32 in [-2^31, 2^31) *)
Definition to_int (x : Z) : Z :=
  let u := x mod 2 ^ 32 in
  if u <? 2 ^ 31 then u else u - 2 ^ 32.

(** ** Kernel configuration

    The driver is compiled against a kernel; what it takes from there
    (the width of [long], the page size and the page helpers, the tick
    rate) is a parameter of the model. *)

Inductive long_width : Type := Long32 | Long64.

Record kernel_config : Type := mk_kernel_config {
  long_bits : long_width;
  HZ : Z;
  PAGE_SIZE : Z;
  PAGE_ALIGN : Z -> Z;
  get_order : Z -> Z;
  virt_to_phys : Z -> Z
}.

Definition BITS_PER_LONG (cfg : kernel_config) : Z :=
  match long_bits cfg with Long32 => 32 | Long64 => 64 end.

(** [unsigned long] *)
Definition to_ulong (cfg : kernel_config) (x : Z) : Z := x mod 2 ^ BITS_PER_LONG cfg.

(** [signed long] *)
Definition to_long (cfg : kernel_config) (x : Z) : Z :=
  let u := to_ulong cfg x in
  if u <? 2 ^ (BITS_PER_LONG cfg - 1) then u else u - 2 ^ BITS_PER_LONG cfg.

Definition ENOMEM : Z := 12.

(** ** Driver constants *)

Definition USBD480_SET_ADDRESS : Z := 0xC0.
Definition USBD480_SET_FRAME_START_ADDRESS : Z := 0xC4.
Definition USBD480_SET_BRIGHTNESS : Z := 0x81.
Definition USBD480_GET_DEVICE_DETAILS : Z := 0x80.

(** [#define USBD480_REFRESH_DELAY 1000/100] is substituted textually, so
    [((USBD480_REFRESH_DELAY * HZ)/1000)] reads [((1000/100 * HZ)/1000)]. *)
Definition USBD480_REFRESH_JIFFIES (cfg : kernel_config) : Z :=
  to_int (Z.quot (to_int (Z.quot 1000 100 * HZ cfg)) 1000).

(** ** Events: the calls the driver makes *)

Inductive direction : Type := USB_DIR_IN | USB_DIR_OUT.

Inductive dev_attr : Type :=
  | dev_attr_brightness | dev_attr_width | dev_attr_height | dev_attr_name.

Inductive label : Type :=
  | error_wq | error_fbreg | error_fballoccmap | error_fbpseudopal
  | error_fballoc | error_vmem | error_dev_attr | error_dev.

(** The fields of [struct fb_info] that the driver fills in. *)
Record fb_info : Type := mk_fb_info {
  screen_base : Z;
  screen_size : Z;
  line_length : Z;
  smem_start : Z;
  smem_len : Z;
  xres : Z;
  yres : Z;
  xres_virtual : Z;
  yres_virtual : Z;
  bits_per_pixel : Z;
  red : Z * Z;
  green : Z * Z;
  blue : Z * Z;
  pseudo_palette : bool
}.

Inductive event : Type :=
  (* usb_control_msg on endpoint 0, vendor request to the interface *)
  | usb_control_msg (dir : direction) (request value index size timeout : Z)
  (* usb_bulk_msg on an OUT endpoint *)
  | usb_bulk_msg (endpoint : Z) (data : Z) (len : Z) (timeout : Z)
  | dev_dbg_result (result : Z)
  | printk (msg : string)
  | kmalloc (size : Z) (ok : bool)
  | kfree_buffer
  | kzalloc_dev (ok : bool)
  | kfree_dev
  | usb_get_dev
  | usb_put_dev
  | usb_set_intfdata (set : bool)
  | device_create_file (a : dev_attr) (ret : Z)
  | device_remove_file (a : dev_attr)
  | get_free_pages (order : Z) (addr : Z)
  | free_pages (addr : Z) (order : Z)
  | SetPageReserved (addr : Z)
  | ClearPageReserved (addr : Z)
  | memset (addr : Z) (c : Z) (n : Z)
  | framebuffer_alloc (ok : bool)
  | framebuffer_release
  | kzalloc_pseudo_palette (ok : bool)
  | kfree_pseudo_palette
  | fb_alloc_cmap (ret : Z)
  | fb_dealloc_cmap
  | register_framebuffer (info : fb_info) (ret : Z)
  | unregister_framebuffer
  | create_singlethread_workqueue (ok : bool)
  | init_delayed_work
  | queue_delayed_work (delay : Z)
  | cancel_delayed_work_sync
  | flush_workqueue
  | destroy_workqueue.

(** ** A writer monad for the trace of events *)

Definition M (A : Type) : Type := A * list event.

Definition ret {A} (a : A) : M A := (a, []).

Definition bind {A B} (m : M A) (k : A -> M B) : M B :=
  let '(a, t1) := m in
  let '(b, t2) := k a in
  (b, t1 ++ t2).

Definition emit (e : event) : M unit := (tt, [e]).

Definition value {A} (m : M A) : A := fst m.
Definition trace {A} (m : M A) : list event := snd m.

Declare Scope drv_scope.
Delimit Scope drv_scope with drv.
Notation "x <- m ;; k" := (bind m (fun x => k))
  (at level 61, m at next level, right associativity) : drv_scope.
Notation "' pat <- m ;; k" := (bind m (fun x => match x with pat => k end))
  (at level 61, pat pattern, m at next level, right associativity) : drv_scope.
Notation "m ;;; k" := (bind m (fun _ => k))
  (at level 61, right associativity) : drv_scope.
Open Scope drv_scope.

(** ** The session: [struct usbd480]

    Pointers are addresses with 0 for NULL.  [struct delayed_work work] has
    no field here: what the driver does with it is in the trace. *)

Record usbd480 : Type := mk_usbd480 {
  udev : bool;
  fbinfo : option fb_info;
  wq : bool;
  vmem : Z;
  vmemsize : Z;
  vmem_phys : Z;
  disp_page : Z;
  brightness : Z;
  width : Z;
  height : Z;
  device_name : list Z
}.

Definition set_udev (v : bool) (d : usbd480) : usbd480 :=
  mk_usbd480 v (fbinfo d) (wq d) (vmem d) (vmemsize d) (vmem_phys d)
             (disp_page d) (brightness d) (width d) (height d) (device_name d).
Definition set_fbinfo (v : option fb_info) (d : usbd480) : usbd480 :=
  mk_usbd480 (udev d) v (wq d) (vmem d) (vmemsize d) (vmem_phys d)
             (disp_page d) (brightness d) (width d) (height d) (device_name d).
Definition set_wq (v : bool) (d : usbd480) : usbd480 :=
  mk_usbd480 (udev d) (fbinfo d) v (vmem d) (vmemsize d) (vmem_phys d)
             (disp_page d) (brightness d) (width d) (height d) (device_name d).
Definition set_vmem (v : Z) (d : usbd480) : usbd480 :=
  mk_usbd480 (udev d) (fbinfo d) (wq d) v (vmemsize d) (vmem_phys d)
             (disp_page d) (brightness d) (width d) (height d) (device_name d).
Definition set_vmemsize (v : Z) (d : usbd480) : usbd480 :=
  mk_usbd480 (udev d) (fbinfo d) (wq d) (vmem d) v (vmem_phys d)
             (disp_page d) (brightness d) (width d) (height d) (device_name d).
Definition set_vmem_phys (v : Z) (d : usbd480) : usbd480 :=
  mk_usbd480 (udev d) (fbinfo d) (wq d) (vmem d) (vmemsize d) v
             (disp_page d) (brightness d) (width d) (height d) (device_name d).
Definition set_disp_page (v : Z) (d : usbd480) : usbd480 :=
  mk_usbd480 (udev d) (fbinfo d) (wq d) (vmem d) (vmemsize d) (vmem_phys d)
             v (brightness d) (width d) (height d) (device_name d).
Definition set_brightness_field (v : Z) (d : usbd480) : usbd480 :=
  mk_usbd480 (udev d) (fbinfo d) (wq d) (vmem d) (vmemsize d) (vmem_phys d)
             (disp_page d) v (width d) (height d) (device_name d).
Definition set_width (v : Z) (d : usbd480) : usbd480 :=
  mk_usbd480 (udev d) (fbinfo d) (wq d) (vmem d) (vmemsize d) (vmem_phys d)
             (disp_page d) (brightness d) v (height d) (device_name d).
Definition set_height (v : Z) (d : usbd480) : usbd480 :=
  mk_usbd480 (udev d) (fbinfo d) (wq d) (vmem d) (vmemsize d) (vmem_phys d)
             (disp_page d) (brightness d) (width d) v (device_name d).
Definition set_device_name (v : list Z) (d : usbd480) : usbd480 :=
  mk_usbd480 (udev d) (fbinfo d) (wq d) (vmem d) (vmemsize d) (vmem_phys d)
             (disp_page d) (brightness d) (width d) (height d) v.

(** What [kzalloc(sizeof(struct usbd480))] returns: every field zero. *)
Definition zeroed_usbd480 : usbd480 :=
  mk_usbd480 false None false 0 0 0 0 0 0 0 (repeat 0 20).

(** ** Byte buffers *)

(** [(unsigned char)buffer[i]] *)
Definition byte_at (buffer : list Z) (i : nat) : Z := to_u8 (nth i buffer 0).

(** [strncpy(dest, src, n)]: the characters of [src] up to its first NUL,
    at most [n] of them, then NUL up to [n] characters in all. *)
Fixpoint strncpy (src : list Z) (n : nat) {struct n} : list Z :=
  match n with
  | O => []
  | S n' =>
      match src with
      | [] => repeat 0 n
      | c :: rest =>
          if to_u8 c =? 0 then repeat 0 n else to_u8 c :: strncpy rest n'
      end
  end.

(** ** ControlChannel: the four control transfers *)

Record details_env : Type := mk_details_env {
  (* kmalloc(64) returned a buffer *)
  buffer_ok : bool;
  (* what usb_control_msg returned *)
  details_result : Z;
  (* the 64 bytes of the buffer after usb_control_msg *)
  details_buffer : list Z
}.

Definition usbd480_get_device_details (env : details_env) (dev : usbd480)
  : M (Z * usbd480) :=
  emit (kmalloc 64 (buffer_ok env)) ;;;
  if negb (buffer_ok env) then
    emit (printk "out of memory") ;;;
    ret (0, dev)
  else
    emit (usb_control_msg USB_DIR_IN USBD480_GET_DEVICE_DETAILS 0 0 64 1000) ;;;
    let result := details_result env in
    let buffer := details_buffer env in
    (if result =? 0 then ret tt else emit (dev_dbg_result result)) ;;;
    let dev := set_width
      (to_uint (Z.lor (byte_at buffer 20) (Z.shiftl (byte_at buffer 21) 8))) dev in
    let dev := set_height
      (to_uint (Z.lor (byte_at buffer 22) (Z.shiftl (byte_at buffer 23) 8))) dev in
    let dev := set_device_name (strncpy buffer 20) dev in
    emit kfree_buffer ;;;
    ret (0, dev).

Definition usbd480_set_brightness (result : Z) (dev : usbd480) (brightness : Z)
  : M Z :=
  emit (usb_control_msg USB_DIR_OUT USBD480_SET_BRIGHTNESS
          (to_u16 brightness) 0 0 1000) ;;;
  (if result =? 0 then ret tt else emit (dev_dbg_result result)) ;;;
  ret 0.

Definition usbd480_set_address (result : Z) (dev : usbd480) (addr : Z) : M Z :=
  emit (usb_control_msg USB_DIR_OUT USBD480_SET_ADDRESS
          (to_u16 addr) (to_u16 (Z.shiftr addr 16)) 0 1000) ;;;
  (if result =? 0 then ret tt else emit (dev_dbg_result result)) ;;;
  ret 0.

Definition usbd480_set_frame_start_address (result : Z) (dev : usbd480) (addr : Z)
  : M Z :=
  emit (usb_control_msg USB_DIR_OUT USBD480_SET_FRAME_START_ADDRESS
          (to_u16 addr) (to_u16 (Z.shiftr addr 16)) 0 1000) ;;;
  (if result =? 0 then ret tt else emit (dev_dbg_result result)) ;;;
  ret 0.

(** ** AttributeExport: the brightness attribute *)

Definition digit_value (c : ascii) : option Z :=
  let n := Z.of_nat (nat_of_ascii c) in
  if (48 <=? n) && (n <=? 57) then Some (n - 48) else None.

(** Modelled from the spec: [simple_strtoul] is a kernel library routine,
    not part of the driver; with base 10 it accepts any unsigned integer
    text, reading the leading decimal digits into an [unsigned long] with
    no range check. *)
Fixpoint simple_strtoul_from (cfg : kernel_config) (result : Z) (cp : string) : Z :=
  match cp with
  | EmptyString => result
  | String c rest =>
      match digit_value c with
      | Some v => simple_strtoul_from cfg (to_ulong cfg (result * 10 + v)) rest
      | None => result
      end
  end.

Definition simple_strtoul (cfg : kernel_config) (cp : string) : Z :=
  simple_strtoul_from cfg 0 cp.

(** [result] is what the control transfer of [usbd480_set_brightness]
    returns. *)
Definition set_brightness (cfg : kernel_config) (result : Z)
           (buf : string) (count : Z) (d : usbd480) : M (Z * usbd480) :=
  let brightness := to_int (simple_strtoul cfg buf) in
  let d := set_brightness_field (to_u8 brightness) d in
  _ <- usbd480_set_brightness result d (to_uint brightness) ;;
  ret (count, d).

(** ** RefreshScheduler: the work function *)

Record cycle_env : Type := mk_cycle_env {
  set_address_result : Z;
  bulk_result : Z;
  bulk_sentsize : Z;
  set_frame_start_result : Z
}.

Definition usbd480fb_work (cfg : kernel_config) (env : cycle_env) (d : usbd480)
  : M usbd480 :=
  let '(writeaddr, showaddr, d) :=
    if disp_page d =? 0 then
      (0, 0, set_disp_page 1 d)
    else
      (to_int (vmemsize d), to_int (vmemsize d), set_disp_page 0 d) in
  _ <- usbd480_set_address (set_address_result env) d (to_uint writeaddr) ;;
  emit (usb_bulk_msg 2 (vmem d) (to_int (vmemsize d)) 5000) ;;;
  let result := bulk_result env in
  _ <- usbd480_set_frame_start_address (set_frame_start_result env) d
         (to_uint showaddr) ;;
  emit (queue_delayed_work (USBD480_REFRESH_JIFFIES cfg)) ;;;
  ret d.

(** [n] consecutive executions of the work function; cycle [k] reads its
    transfer results from [env k]. *)
Fixpoint run_cycles (cfg : kernel_config) (env : nat -> cycle_env)
         (k n : nat) (d : usbd480) : M usbd480 :=
  match n with
  | O => ret d
  | S n' =>
      d' <- usbd480fb_work cfg (env k) d ;;
      run_cycles cfg env (S k) n' d'
  end.

(** The value of [disp_page] at the start of each of [n] consecutive
    cycles. *)
Fixpoint pages_at_start (cfg : kernel_config) (env : nat -> cycle_env)
         (k n : nat) (d : usbd480) : list Z :=
  match n with
  | O => []
  | S n' =>
      disp_page d ::
      pages_at_start cfg env (S k) n' (value (usbd480fb_work cfg (env k) d))
  end.

(** ** DisplaySession: attach and detach *)

(** [USBD480_VIDEOMEMORDER], which reads [dev->vmemsize] where it is used. *)
Definition USBD480_VIDEOMEMORDER (cfg : kernel_config) (dev : usbd480) : Z :=
  get_order cfg (PAGE_ALIGN cfg (vmemsize dev)).

(** [while (size > 0) { f(virt_to_page(addr)); addr += PAGE_SIZE;
    size -= PAGE_SIZE; }] *)
Fixpoint page_loop (cfg : kernel_config) (f : Z -> event)
         (fuel : nat) (addr size : Z) : M unit :=
  match fuel with
  | O => ret tt
  | S fuel' =>
      if size >? 0 then
        emit (f addr) ;;;
        page_loop cfg f fuel' (to_ulong cfg (addr + PAGE_SIZE cfg))
                  (to_long cfg (size - PAGE_SIZE cfg))
      else ret tt
  end.

(** The loop over the pages of the frame memory, with
    [size = PAGE_SIZE * (1 << USBD480_VIDEOMEMORDER)] and
    [addr = (unsigned long)dev->vmem]. *)
Definition for_each_page (cfg : kernel_config) (f : Z -> event) (dev : usbd480)
  : M unit :=
  let size := to_long cfg (PAGE_SIZE cfg * Z.shiftl 1 (USBD480_VIDEOMEMORDER cfg dev)) in
  let addr := vmem dev in
  page_loop cfg f (Z.to_nat (Z.shiftl 1 (USBD480_VIDEOMEMORDER cfg dev))) addr size.

Record probe_env : Type := mk_probe_env {
  (* kzalloc of the session succeeded *)
  dev_ok : bool;
  (* return value of device_create_file for each attribute *)
  create_file_ret : dev_attr -> Z;
  details : details_env;
  (* address returned by __get_free_pages, 0 when it fails *)
  pages_addr : Z;
  fballoc_ok : bool;
  palette_ok : bool;
  cmap_ret : Z;
  register_ret : Z;
  wq_ok : bool
}.

Definition label_index (l : label) : nat :=
  match l with
  | error_wq => 0 | error_fbreg => 1 | error_fballoccmap => 2
  | error_fbpseudopal => 3 | error_fballoc => 4 | error_vmem => 5
  | error_dev_attr => 6 | error_dev => 7
  end%nat.

(** After [goto from], control falls through every label below it: the
    statements at label [l] run when [l] is at or below [from]. *)
Definition runs (from l : label) : bool :=
  (label_index from <=? label_index l)%nat.

Definition when (b : bool) (m : M unit) : M unit := if b then m else ret tt.

Definition remove_attribute_files : M unit :=
  emit (device_remove_file dev_attr_brightness) ;;;
  emit (device_remove_file dev_attr_width) ;;;
  emit (device_remove_file dev_attr_height) ;;;
  emit (device_remove_file dev_attr_name).

(** The error labels at the end of [usbd480_probe].  The result is the
    return value of the probe and the session left alive (none). *)
Definition probe_unwind (cfg : kernel_config) (from : label)
           (dev : option usbd480) (info : option fb_info) (retval : Z)
  : M (Z * option usbd480) :=
  when (runs from error_wq) (emit unregister_framebuffer) ;;;
  when (runs from error_fbreg) (emit fb_dealloc_cmap) ;;;
  when (runs from error_fballoccmap)
       (match info with
        | Some i => when (pseudo_palette i) (emit kfree_pseudo_palette)
        | None => ret tt
        end) ;;;
  when (runs from error_fbpseudopal) (emit framebuffer_release) ;;;
  when (runs from error_fballoc)
       (match dev with
        | Some d =>
            for_each_page cfg ClearPageReserved d ;;;
            emit (free_pages (vmem d) (USBD480_VIDEOMEMORDER cfg d))
        | None => ret tt
        end) ;;;
  when (runs from error_dev_attr) remove_attribute_files ;;;
  emit (usb_set_intfdata false) ;;;
  (match dev with Some _ => emit kfree_dev | None => ret tt end) ;;;
  emit (printk "usbd480fb: error probe") ;;;
  ret (retval, None).

(** [info->...] as filled in by the probe before the palette is allocated. *)
Definition probe_fb_info (dev : usbd480) : fb_info :=
  {| screen_base := vmem dev;
     screen_size := vmemsize dev;
     line_length := to_uint (to_uint (width dev * 16) / 8);
     smem_start := vmem_phys dev;
     smem_len := to_uint (vmemsize dev);
     xres := width dev;
     yres := height dev;
     xres_virtual := width dev;
     yres_virtual := height dev;
     bits_per_pixel := 16;
     red := (11, 5);
     green := (5, 6);
     blue := (0, 5);
     pseudo_palette := false |}.

Definition set_pseudo_palette (v : bool) (i : fb_info) : fb_info :=
  mk_fb_info (screen_base i) (screen_size i) (line_length i) (smem_start i)
             (smem_len i) (xres i) (yres i) (xres_virtual i) (yres_virtual i)
             (bits_per_pixel i) (red i) (green i) (blue i) v.

(** Discovery and the size of the frame memory: the three statements of
    the probe before the pages are requested.  The product is [unsigned int]
    arithmetic, stored in an [unsigned long]. *)
Definition probe_discover (env : probe_env) (dev : usbd480) : M usbd480 :=
  '(_, dev) <- usbd480_get_device_details (details env) dev ;;
  let dev := set_vmemsize (to_uint (to_uint (width dev * height dev) * 2)) dev in
  let dev := set_vmem 0 dev in
  ret dev.

(** The probe from [usbd480_get_device_details] on, entered once the four
    attribute files exist. *)
Definition probe_from_details (cfg : kernel_config) (env : probe_env)
           (dev : usbd480) (retval : Z) : M (Z * option usbd480) :=
  dev <- probe_discover env dev ;;
  emit (get_free_pages (USBD480_VIDEOMEMORDER cfg dev) (pages_addr env)) ;;;
  let dev := set_vmem (pages_addr env) dev in
  if vmem dev =? 0 then
    emit (printk ": can't allocate vmem buffer") ;;;
    probe_unwind cfg error_vmem (Some dev) None (- ENOMEM)
  else
  for_each_page cfg SetPageReserved dev ;;;
  let dev := set_vmem_phys (virt_to_phys cfg (vmem dev)) dev in
  emit (memset (vmem dev) 0 (vmemsize dev)) ;;;
  emit (framebuffer_alloc (fballoc_ok env)) ;;;
  if negb (fballoc_ok env) then
    emit (printk "error: framebuffer_alloc") ;;;
    probe_unwind cfg error_fballoc (Some dev) None retval
  else
  let info := probe_fb_info dev in
  emit (kzalloc_pseudo_palette (palette_ok env)) ;;;
  let info := set_pseudo_palette (palette_ok env) info in
  if negb (palette_ok env) then
    emit (printk "Failed to allocate pseudo_palette") ;;;
    probe_unwind cfg error_fbpseudopal (Some dev) (Some info) (- ENOMEM)
  else
  let retval := cmap_ret env in
  emit (fb_alloc_cmap retval) ;;;
  if retval <? 0 then
    emit (printk "Failed to allocate cmap") ;;;
    probe_unwind cfg error_fballoccmap (Some dev) (Some info) (- ENOMEM)
  else
  let retval := register_ret env in
  emit (register_framebuffer info retval) ;;;
  if retval <? 0 then
    emit (printk "error: register_framebuffer") ;;;
    probe_unwind cfg error_fbreg (Some dev) (Some info) retval
  else
  let dev := set_fbinfo (Some info) dev in
  let dev := set_disp_page 0 dev in
  emit (create_singlethread_workqueue (wq_ok env)) ;;;
  let dev := set_wq (wq_ok env) dev in
  if negb (wq dev) then
    emit (printk "Could not create work queue") ;;;
    probe_unwind cfg error_wq (Some dev) (Some info) (- ENOMEM)
  else
  emit init_delayed_work ;;;
  emit (queue_delayed_work (to_int (USBD480_REFRESH_JIFFIES cfg * 4))) ;;;
  emit (printk "USBD480 framebuffer device") ;;;
  ret (0, Some dev).

Definition create_attribute_file (env : probe_env) (a : dev_attr) : M Z :=
  emit (device_create_file a (create_file_ret env a)) ;;;
  ret (create_file_ret env a).

(** The result is the return value and the session that stays attached to
    the interface, if any. *)
Definition usbd480_probe (cfg : kernel_config) (env : probe_env)
  : M (Z * option usbd480) :=
  emit (kzalloc_dev (dev_ok env)) ;;;
  if negb (dev_ok env) then
    emit (printk "Out of memory") ;;;
    probe_unwind cfg error_dev None None (- ENOMEM)
  else
  let dev := zeroed_usbd480 in
  emit usb_get_dev ;;;
  let dev := set_udev true dev in
  emit (usb_set_intfdata true) ;;;
  retval <- create_attribute_file env dev_attr_brightness ;;
  if negb (retval =? 0) then probe_unwind cfg error_dev_attr (Some dev) None retval else
  retval <- create_attribute_file env dev_attr_width ;;
  if negb (retval =? 0) then probe_unwind cfg error_dev_attr (Some dev) None retval else
  retval <- create_attribute_file env dev_attr_height ;;
  if negb (retval =? 0) then probe_unwind cfg error_dev_attr (Some dev) None retval else
  retval <- create_attribute_file env dev_attr_name ;;
  if negb (retval =? 0) then probe_unwind cfg error_dev_attr (Some dev) None retval else
  emit (printk "USBD480 attached") ;;;
  probe_from_details cfg env dev retval.

Definition usbd480_disconnect (cfg : kernel_config) (dev : usbd480) : M unit :=
  emit cancel_delayed_work_sync ;;;
  emit flush_workqueue ;;;
  emit destroy_workqueue ;;;
  remove_attribute_files ;;;
  (match fbinfo dev with
   | Some info =>
       emit unregister_framebuffer ;;;
       emit framebuffer_release ;;;
       for_each_page cfg ClearPageReserved dev ;;;
       emit (free_pages (vmem dev) (USBD480_VIDEOMEMORDER cfg dev))
   | None => ret tt
   end) ;;;
  emit (usb_set_intfdata false) ;;;
  emit usb_put_dev ;;;
  emit kfree_dev ;;;
  emit (printk "USBD480 disconnected").

(** ** What the kernel holds for the session, read off a trace *)

Definition dev_attr_eqb (a b : dev_attr) : bool :=
  match a, b with
  | dev_attr_brightness, dev_attr_brightness
  | dev_attr_width, dev_attr_width
  | dev_attr_height, dev_attr_height
  | dev_attr_name, dev_attr_name => true
  | _, _ => false
  end.

(** Modelled from the spec: the attribute interface is the kernel's.  An
    attribute file of the interface is created by a [device_create_file]
    that returned 0 and is gone after [device_remove_file]. *)
Definition attr_step (files : list dev_attr) (e : event) : list dev_attr :=
  match e with
  | device_create_file a r =>
      if (r =? 0) && negb (existsb (dev_attr_eqb a) files) then a :: files else files
  | device_remove_file a => filter (fun b => negb (dev_attr_eqb a b)) files
  | _ => files
  end.

Definition attribute_files (t : list event) : list dev_attr :=
  fold_left attr_step t [].

(** Modelled from the spec: the framebuffer layer is the kernel's.  A
    framebuffer is known to it from a [register_framebuffer] that returned
    0 until [unregister_framebuffer]. *)
Definition fb_step (fbs : list fb_info) (e : event) : list fb_info :=
  match e with
  | register_framebuffer info r => if r =? 0 then info :: fbs else fbs
  | unregister_framebuffer => tl fbs
  | _ => fbs
  end.

Definition registered_framebuffers (t : list event) : list fb_info :=
  fold_left fb_step t [].

(** Modelled from the spec: the workqueue is the kernel's, not the
    driver's.  A cycle may be pending, a cycle may be executing on the
    worker thread.  [queue_delayed_work] leaves the work pending;
    [cancel_delayed_work_sync] cancels synchronously, returning once the
    work is neither pending nor executing; [destroy_workqueue] ends the
    worker thread. *)
Record sched : Type := mk_sched {
  work_pending : bool;
  work_executing : bool;
  worker_alive : bool
}.

Definition sched_step (s : sched) (e : event) : sched :=
  match e with
  | create_singlethread_workqueue ok => mk_sched (work_pending s) (work_executing s) ok
  | queue_delayed_work _ => mk_sched true (work_executing s) (worker_alive s)
  | cancel_delayed_work_sync => mk_sched false false (worker_alive s)
  | destroy_workqueue => mk_sched (work_pending s) (work_executing s) false
  | _ => s
  end.

Definition sched_after (s : sched) (t : list event) : sched :=
  fold_left sched_step t s.

Definition stopped (s : sched) : bool :=
  negb (work_pending s) && negb (work_executing s) && negb (worker_alive s).

(** Events that give up the frame memory or the session. *)
Definition is_release (e : event) : bool :=
  match e with
  | free_pages _ _ | kfree_dev => true
  | _ => false
  end.

(** Every release in [t] happens with the refresh task stopped. *)
Fixpoint released_only_when_stopped (s : sched) (t : list event) : bool :=
  match t with
  | [] => true
  | e :: t' =>
      (if is_release e then stopped s else true)
      && released_only_when_stopped (sched_step s e) t'
  end.

(** ** A concrete kernel configuration

    The generic [get_order] and [PAGE_ALIGN] of a 32-bit kernel with 4 KiB
    pages, for evaluating the model on concrete inputs. *)

Fixpoint get_order_loop (fuel : nat) (size order : Z) : Z :=
  match fuel with
  | O => order
  | S fuel' =>
      let size := Z.shiftr size 1 in
      let order := order + 1 in
      if size =? 0 then order else get_order_loop fuel' size order
  end.

Definition generic_get_order (bits page_shift size : Z) : Z :=
  let size := Z.shiftr ((size - 1) mod 2 ^ bits) (page_shift - 1) in
  get_order_loop (Z.to_nat bits) size (-1).

Definition generic_PAGE_ALIGN (bits page_shift addr : Z) : Z :=
  Z.land ((addr + 2 ^ page_shift - 1) mod 2 ^ bits)
         ((- 2 ^ page_shift) mod 2 ^ bits).

Definition config32 : kernel_config :=
  {| long_bits := Long32;
     HZ := 250;
     PAGE_SIZE := 4096;
     PAGE_ALIGN := generic_PAGE_ALIGN 32 12;
     get_order := generic_get_order 32 12;
     virt_to_phys := fun a => a - 0xC0000000 |}.

(** ** Reading a trace *)

(** The 32-bit device address carried by an address request: [wValue] holds
    the low half and [wIndex] the high half. *)
Definition request_address (request : Z) (e : event) : option Z :=
  match e with
  | usb_control_msg USB_DIR_OUT r v i _ _ =>
      if r =? request then Some (v + 65536 * i) else None
  | _ => None
  end.

Fixpoint first_address (request : Z) (t : list event) : option Z :=
  match t with
  | [] => None
  | e :: t' =>
      match request_address request e with
      | Some a => Some a
      | None => first_address request t'
      end
  end.

(** The offset the cycle announces as write address, and as show address. *)
Definition write_address (t : list event) : option Z :=
  first_address USBD480_SET_ADDRESS t.
Definition show_address (t : list event) : option Z :=
  first_address USBD480_SET_FRAME_START_ADDRESS t.

(** What [if (result) dev_dbg(...)] adds to the trace. *)
Definition dbg (result : Z) : list event :=
  if result =? 0 then [] else [dev_dbg_result result].

(** The events of [usbd480_set_address] and
    [usbd480_set_frame_start_address] for a 32-bit offset. *)
Definition set_write_address (off : Z) : event :=
  usb_control_msg USB_DIR_OUT USBD480_SET_ADDRESS
                  (to_u16 off) (to_u16 (Z.shiftr off 16)) 0 1000.
Definition set_show_address (off : Z) : event :=
  usb_control_msg USB_DIR_OUT USBD480_SET_FRAME_START_ADDRESS
                  (to_u16 off) (to_u16 (Z.shiftr off 16)) 0 1000.

(** The page a cycle leaves behind and the offset it announces, from the
    page it starts with. *)
Definition toggled (d : usbd480) : Z := if disp_page d =? 0 then 1 else 0.
Definition cycle_offset (d : usbd480) : Z :=
  if disp_page d =? 0 then 0 else to_uint (vmemsize d).

(** Two sessions that agree on every field but [disp_page]. *)
Definition same_but_page (d d' : usbd480) : Prop :=
  udev d' = udev d /\ fbinfo d' = fbinfo d /\ wq d' = wq d /\
  vmem d' = vmem d /\ vmemsize d' = vmemsize d /\ vmem_phys d' = vmem_phys d /\
  brightness d' = brightness d /\ width d' = width d /\ height d' = height d /\
  device_name d' = device_name d.

(** The little-endian 16-bit value at byte offsets [i] and [i+1]. *)
Definition le16 (buffer : list Z) (i : nat) : Z :=
  byte_at buffer i + 256 * byte_at buffer (S i).

(** The unsigned integer written in decimal at the start of a text. *)
Fixpoint decimal_from (acc : Z) (cp : string) : Z :=
  match cp with
  | EmptyString => acc
  | String c rest =>
      match digit_value c with
      | Some v => decimal_from (acc * 10 + v) rest
      | None => acc
      end
  end.

Definition decimal_value (cp : string) : Z := decimal_from 0 cp.

(** ** Concrete inputs *)

(** A response of a 480x272 display: the name, then width and height. *)
Definition details_480x272 : list Z :=
  [85; 83; 66; 68; 52; 56; 48; 45; 76; 81; 48; 52; 51; 0; 0; 0; 0; 0; 0; 0;
   224; 1; 16; 1] ++ repeat 0 40.

(** A response announcing 49152 x 43691 pixels. *)
Definition details_49152x43691 : list Z :=
  repeat 0 20 ++ [0; 192; 171; 170] ++ repeat 0 40.

(** A buffer that was never written: slab poison. *)
Definition details_poison : list Z := repeat 0x6b 64.

Definition all_created : dev_attr -> Z := fun _ => 0.

Definition env_480x272 : probe_env :=
  mk_probe_env true all_created (mk_details_env true 64 details_480x272)
               0xC1000000 true true 0 0 true.

Definition env_49152x43691 : probe_env :=
  mk_probe_env true all_created (mk_details_env true 64 details_49152x43691)
               0xC1000000 true true 0 0 true.

(** The pages cannot be had. *)
Definition env_no_pages : probe_env :=
  mk_probe_env true all_created (mk_details_env true 64 details_480x272)
               0 true true 0 0 true.

(** The response buffer cannot be allocated, and then the pages neither. *)
Definition env_no_buffer : probe_env :=
  mk_probe_env true all_created (mk_details_env false 0 [])
               0 true true 0 0 true.

(** The control transfer times out (-ETIMEDOUT), the buffer stays as
    allocated. *)
Definition details_timeout : details_env :=
  mk_details_env true (-110) details_poison.

(** The control transfer times out over a buffer that happens to be zero. *)
Definition env_timeout_zero : probe_env :=
  mk_probe_env true all_created (mk_details_env true (-110) (repeat 0 64))
               0 true true 0 0 true.

Definition cycle_ok : cycle_env := mk_cycle_env 0 0 261120 0.
Definition cycle_bulk_timeout : cycle_env := mk_cycle_env 0 (-110) 0 0.

(** The session of a 480x272 display as the probe leaves it, and after one
    cycle. *)
Definition session_480x272 : usbd480 :=
  Eval vm_compute in
    match snd (value (usbd480_probe config32 env_480x272)) with
    | Some d => d
    | None => zeroed_usbd480
    end.

Definition session_480x272_page1 : usbd480 :=
  Eval vm_compute in value (usbd480fb_work config32 cycle_ok session_480x272).

Definition session_49152x43691 : usbd480 :=
  Eval vm_compute in
    match snd (value (usbd480_probe config32 env_49152x43691)) with
    | Some d => d
    | None => zeroed_usbd480
    end.

(** ** AttributeExport: reading the attributes *)

Definition digit_char (n : Z) : ascii := ascii_of_nat (48 + Z.to_nat n).

Definition newline : string := String (ascii_of_nat 10) EmptyString.

(** The decimal digits of [n], most significant first, in front of
    [tail]: one digit per division by ten. *)
Fixpoint number (fuel : nat) (n : Z) (tail : string) : string :=
  match fuel with
  | O => String (digit_char n) tail
  | S fuel' =>
      if n <? 10 then String (digit_char n) tail
      else number fuel' (n / 10) (String (digit_char (n mod 10)) tail)
  end.

(** Modelled from the spec: [sprintf] is a kernel library routine, not
    part of the driver; [sprintf(buf, "%d\n", v)] formats the [int] [v] as
    text, in decimal, followed by a newline.  An [int] has at most ten
    digits. *)
Definition sprintf_d (v : Z) : string :=
  if v <? 0 then String "-" (number 9 (- v) newline) else number 9 v newline.

(** The attribute readers return the text put in [buf] and the value of
    [sprintf], the number of characters written. *)
Definition show_brightness (d : usbd480) : string * Z :=
  let buf := sprintf_d (brightness d) in
  (buf, Z.of_nat (String.length buf)).

(** [d->width] and [d->height] are [unsigned int], read by [%d] as [int]. *)
Definition show_width (d : usbd480) : string * Z :=
  let buf := sprintf_d (to_int (width d)) in
  (buf, Z.of_nat (String.length buf)).

Definition show_height (d : usbd480) : string * Z :=
  let buf := sprintf_d (to_int (height d)) in
  (buf, Z.of_nat (String.length buf)).

(** The characters of a C string held in an array: those before the first
    NUL; none when the array holds no NUL, where the read runs past the
    array. *)
Fixpoint c_string (bytes : list Z) : option (list Z) :=
  match bytes with
  | [] => None
  | c :: rest =>
      if c =? 0 then Some []
      else match c_string rest with
           | Some cs => Some (c :: cs)
           | None => None
           end
  end.

Fixpoint string_of_bytes (cs : list Z) : string :=
  match cs with
  | [] => EmptyString
  | c :: rest => String (ascii_of_nat (Z.to_nat c)) (string_of_bytes rest)
  end.

(** [sprintf(buf, "%s\n", d->device_name)]: the result is [None] when
    [device_name] holds no NUL and the read leaves the field. *)
Definition show_name (d : usbd480) : option (string * Z) :=
  match c_string (device_name d) with
  | Some cs =>
      let buf := (string_of_bytes cs ++ newline)%string in
      Some (buf, Z.of_nat (String.length buf))
  | None => None
  end.

(** ** The whole life of a session *)

(** Attach, [n] refresh cycles, detach; the result is what the probe
    returned.  A probe that leaves no session is not followed by a
    detach. *)
Definition attach_run_detach (cfg : kernel_config) (penv : probe_env)
           (cenv : nat -> cycle_env) (n : nat) : M Z :=
  '(retval, alive) <- usbd480_probe cfg penv ;;
  match alive with
  | Some d =>
      d' <- run_cycles cfg cenv 0 n d ;;
      usbd480_disconnect cfg d' ;;;
      ret retval
  | None => ret retval
  end.

(** ** What the session holds, read off a trace *)

(** Modelled from the spec: allocation and release are the kernel's.  The
    record counts what the driver has acquired and not yet given back:
    the session structure, references to the USB device, the interface
    data pointer, response buffers, blocks of pages (address and order),
    the [fb_info], the pseudo palette and the colour map. *)
Record resources : Type := mk_resources {
  res_session : Z;
  res_udev : Z;
  res_intfdata : bool;
  res_buffer : Z;
  res_pages : list (Z * Z);
  res_fb_info : Z;
  res_palette : Z;
  res_cmap : Z
}.

Definition no_resources : resources :=
  mk_resources 0 0 false 0 [] 0 0 0.

Definition same_block (a b : Z * Z) : bool :=
  (fst a =? fst b) && (snd a =? snd b).

(** Give back the first block equal to [b]. *)
Fixpoint remove_block (b : Z * Z) (l : list (Z * Z)) : list (Z * Z) :=
  match l with
  | [] => []
  | x :: l' => if same_block b x then l' else x :: remove_block b l'
  end.

Definition res_step (r : resources) (e : event) : resources :=
  match e with
  | kzalloc_dev true =>
      mk_resources (res_session r + 1) (res_udev r) (res_intfdata r)
        (res_buffer r) (res_pages r) (res_fb_info r) (res_palette r) (res_cmap r)
  | kfree_dev =>
      mk_resources (res_session r - 1) (res_udev r) (res_intfdata r)
        (res_buffer r) (res_pages r) (res_fb_info r) (res_palette r) (res_cmap r)
  | usb_get_dev =>
      mk_resources (res_session r) (res_udev r + 1) (res_intfdata r)
        (res_buffer r) (res_pages r) (res_fb_info r) (res_palette r) (res_cmap r)
  | usb_put_dev =>
      mk_resources (res_session r) (res_udev r - 1) (res_intfdata r)
        (res_buffer r) (res_pages r) (res_fb_info r) (res_palette r) (res_cmap r)
  | usb_set_intfdata b =>
      mk_resources (res_session r) (res_udev r) b
        (res_buffer r) (res_pages r) (res_fb_info r) (res_palette r) (res_cmap r)
  | kmalloc _ true =>
      mk_resources (res_session r) (res_udev r) (res_intfdata r)
        (res_buffer r + 1) (res_pages r) (res_fb_info r) (res_palette r) (res_cmap r)
  | kfree_buffer =>
      mk_resources (res_session r) (res_udev r) (res_intfdata r)
        (res_buffer r - 1) (res_pages r) (res_fb_info r) (res_palette r) (res_cmap r)
  | get_free_pages order addr =>
      if addr =? 0 then r
      else
        mk_resources (res_session r) (res_udev r) (res_intfdata r)
          (res_buffer r) ((addr, order) :: res_pages r) (res_fb_info r)
          (res_palette r) (res_cmap r)
  | free_pages addr order =>
      mk_resources (res_session r) (res_udev r) (res_intfdata r)
        (res_buffer r) (remove_block (addr, order) (res_pages r)) (res_fb_info r)
        (res_palette r) (res_cmap r)
  | framebuffer_alloc true =>
      mk_resources (res_session r) (res_udev r) (res_intfdata r)
        (res_buffer r) (res_pages r) (res_fb_info r + 1) (res_palette r) (res_cmap r)
  | framebuffer_release =>
      mk_resources (res_session r) (res_udev r) (res_intfdata r)
        (res_buffer r) (res_pages r) (res_fb_info r - 1) (res_palette r) (res_cmap r)
  | kzalloc_pseudo_palette true =>
      mk_resources (res_session r) (res_udev r) (res_intfdata r)
        (res_buffer r) (res_pages r) (res_fb_info r) (res_palette r + 1) (res_cmap r)
  | kfree_pseudo_palette =>
      mk_resources (res_session r) (res_udev r) (res_intfdata r)
        (res_buffer r) (res_pages r) (res_fb_info r) (res_palette r - 1) (res_cmap r)
  | fb_alloc_cmap ret =>
      if ret <? 0 then r
      else
        mk_resources (res_session r) (res_udev r) (res_intfdata r)
          (res_buffer r) (res_pages r) (res_fb_info r) (res_palette r)
          (res_cmap r + 1)
  | fb_dealloc_cmap =>
      mk_resources (res_session r) (res_udev r) (res_intfdata r)
        (res_buffer r) (res_pages r) (res_fb_info r) (res_palette r)
        (res_cmap r - 1)
  | _ => r
  end.

Definition resources_after (r : resources) (t : list event) : resources :=
  fold_left res_step t r.

Definition held (t : list event) : resources := resources_after no_resources t.

(** The scheduler before the probe: no worker thread, nothing pending. *)
Definition sched_none : sched := mk_sched false false false.

(** Setting and clearing the reserved flag of a page. *)
Definition is_page_flag (e : event) : bool :=
  match e with
  | SetPageReserved _ | ClearPageReserved _ => true
  | _ => false
  end.

(** The bulk transfers of a trace: buffer address and length. *)
Fixpoint bulk_transfers (t : list event) : list (Z * Z) :=
  match t with
  | [] => []
  | usb_bulk_msg _ data len _ :: t' => (data, len) :: bulk_transfers t'
  | _ :: t' => bulk_transfers t'
  end.

(** All the offsets announced by requests [request], in order. *)
Fixpoint addresses (request : Z) (t : list event) : list Z :=
  match t with
  | [] => []
  | e :: t' =>
      match request_address request e with
      | Some a => a :: addresses request t'
      | None => addresses request t'
      end
  end.

Definition count_events (p : event -> bool) (t : list event) : nat :=
  List.length (filter p t).

Definition is_device_io (e : event) : bool :=
  match e with
  | usb_control_msg _ _ _ _ _ _ | usb_bulk_msg _ _ _ _ => true
  | _ => false
  end.

(** Everything read off a trace at once, from the state before the probe:
    attribute files, registered framebuffers, what is held, and the
    refresh task. *)
Definition view : Type := list dev_attr * list fb_info * resources * sched.

Definition observe (t : list event) : view :=
  (attribute_files t, registered_framebuffers t, held t,
   sched_after sched_none t).

Definition view_step (v : view) (e : event) : view :=
  match v with
  | (a, f, r, s) => (attr_step a e, fb_step f e, res_step r e, sched_step s e)
  end.

Definition no_view : view := ([], [], no_resources, sched_none).

(** The creation of the height attribute fails with -EEXIST. *)
Definition env_height_fails : probe_env :=
  mk_probe_env true
    (fun a => match a with dev_attr_height => -17 | _ => 0 end)
    (mk_details_env true 64 details_480x272)
    0xC1000000 true true 0 0 true.

(** [framebuffer_alloc] fails. *)
Definition env_no_fb_info : probe_env :=
  mk_probe_env true all_created (mk_details_env true 64 details_480x272)
               0xC1000000 false true 0 0 true.

(** * Properties *)

(** ** Integer conversions *)

Lemma to_uint_range x : 0 <= to_uint x < 2 ^ 32.
Proof. unfold to_uint. apply Z.mod_pos_bound. lia. Qed.

Lemma to_uint_small x : 0 <= x < 2 ^ 32 -> to_uint x = x.
Proof. intros H. unfold to_uint. apply Z.mod_small. exact H. Qed.

Lemma to_u8_range x : 0 <= to_u8 x < 256.
Proof. unfold to_u8. change (2 ^ 8) with 256. apply Z.mod_pos_bound. lia. Qed.

(** Reducing modulo [2^m] and then modulo [2^n], [n <= m], is reducing
    modulo [2^n]. *)
Lemma mod_pow2_mod_pow2 x n m :
  0 <= n <= m -> (x mod 2 ^ m) mod 2 ^ n = x mod 2 ^ n.
Proof.
  intros H. apply Z.mod_mod_divide.
  exists (2 ^ (m - n)). rewrite <- Z.pow_add_r by lia. f_equal. lia.
Qed.

Lemma to_int_congr x : (to_int x) mod 2 ^ 32 = x mod 2 ^ 32.
Proof.
  unfold to_int.
  destruct (x mod 2 ^ 32 <? 2 ^ 31).
  - apply Z.mod_mod. lia.
  - replace (x mod 2 ^ 32 - 2 ^ 32) with (x mod 2 ^ 32 + (-1) * 2 ^ 32) by lia.
    rewrite Z.mod_add by lia. apply Z.mod_mod. lia.
Qed.

(** An [unsigned long] stored in an [int] and passed on as an
    [unsigned int] keeps its low 32 bits. *)
Lemma to_uint_to_int x : to_uint (to_int x) = to_uint x.
Proof. apply to_int_congr. Qed.

Lemma to_int_small x : 0 <= x < 2 ^ 31 -> to_int x = x.
Proof.
  intros H. unfold to_int.
  rewrite Z.mod_small by lia.
  destruct (Z.ltb_spec x (2 ^ 31)); lia.
Qed.

Lemma to_u8_to_int x : to_u8 (to_int x) = to_u8 x.
Proof.
  unfold to_u8.
  rewrite <- (mod_pow2_mod_pow2 (to_int x) 8 32) by lia.
  rewrite to_int_congr. apply mod_pow2_mod_pow2. lia.
Qed.

Lemma to_u16_to_uint x : to_u16 (to_uint x) = to_u16 x.
Proof. unfold to_u16, to_uint. apply mod_pow2_mod_pow2. lia. Qed.

Lemma BITS_PER_LONG_ge_32 cfg : 32 <= BITS_PER_LONG cfg.
Proof. unfold BITS_PER_LONG. destruct (long_bits cfg); lia. Qed.

Lemma to_int_to_ulong cfg x : (to_int (to_ulong cfg x)) mod 2 ^ 32 = x mod 2 ^ 32.
Proof.
  rewrite to_int_congr. unfold to_ulong.
  apply mod_pow2_mod_pow2. pose proof (BITS_PER_LONG_ge_32 cfg). lia.
Qed.

(** The two halves of an address request give the 32-bit offset back. *)
Lemma halves_address off :
  0 <= off < 2 ^ 32 ->
  to_u16 off + 65536 * to_u16 (Z.shiftr off 16) = off.
Proof.
  intros H. unfold to_u16. rewrite Z.shiftr_div_pow2 by lia.
  change (2 ^ 16) with 65536 in *. change (2 ^ 32) with 4294967296 in H.
  assert (0 <= off / 65536 < 65536).
  { split.
    - apply Z.div_pos; lia.
    - apply Z.div_lt_upper_bound; lia. }
  rewrite (Z.mod_small (off / 65536)) by lia.
  pose proof (Z.div_mod off 65536). lia.
Qed.

(** A byte or-ed with a byte shifted by 8 is the little-endian pair. *)
Lemma lor_shiftl_8 a b :
  0 <= a < 256 -> 0 <= b < 256 ->
  to_uint (Z.lor a (Z.shiftl b 8)) = a + 256 * b.
Proof.
  intros Ha Hb.
  assert (L : Z.land a (Z.shiftl b 8) = 0).
  { apply Z.bits_inj'. intros n Hn.
    rewrite Z.land_spec, Z.bits_0.
    destruct (Z.ltb_spec n 8).
    - rewrite (Z.shiftl_spec_low b 8 n) by lia. apply andb_false_r.
    - assert (Z.testbit a n = false) as ->; [|reflexivity].
      destruct (Z.eq_dec a 0) as [->|Hne]; [apply Z.bits_0|].
      apply Z.bits_above_log2; [lia|].
      apply Z.log2_lt_pow2; [lia|].
      apply Z.lt_le_trans with (2 ^ 8); [change (2 ^ 8) with 256; lia|].
      apply Z.pow_le_mono_r; lia. }
  rewrite <- Z.lxor_lor by exact L.
  rewrite <- Z.add_nocarry_lxor by exact L.
  rewrite Z.shiftl_mul_pow2 by lia. change (2 ^ 8) with 256.
  rewrite to_uint_small by (change (2 ^ 32) with 4294967296; lia). lia.
Qed.

(** ** The trace monad *)

Lemma trace_bind {A B} (m : M A) (k : A -> M B) :
  trace (bind m k) = trace m ++ trace (k (value m)).
Proof.
  unfold bind, trace, value. destruct m as [a t1]. simpl.
  destruct (k a) as [b t2]. reflexivity.
Qed.

Lemma value_bind {A B} (m : M A) (k : A -> M B) :
  value (bind m k) = value (k (value m)).
Proof.
  unfold bind, value. destruct m as [a t1]. simpl.
  destruct (k a) as [b t2]. reflexivity.
Qed.

(** ** The refresh cycle *)

Lemma usbd480fb_work_eq cfg env d :
  usbd480fb_work cfg env d =
  (set_disp_page (toggled d) d,
   [set_write_address (cycle_offset d)] ++ dbg (set_address_result env) ++
   [usb_bulk_msg 2 (vmem d) (to_int (vmemsize d)) 5000;
    set_show_address (cycle_offset d)] ++ dbg (set_frame_start_result env) ++
   [queue_delayed_work (USBD480_REFRESH_JIFFIES cfg)]).
Proof.
  unfold usbd480fb_work, toggled, cycle_offset, dbg,
    usbd480_set_address, usbd480_set_frame_start_address,
    set_write_address, set_show_address.
  destruct (disp_page d =? 0);
    destruct (set_address_result env =? 0);
    destruct (set_frame_start_result env =? 0);
    cbn [bind emit ret app fst snd vmem vmemsize set_disp_page];
    rewrite ?to_uint_to_int; reflexivity.
Qed.

Lemma usbd480fb_work_value cfg env d :
  value (usbd480fb_work cfg env d) = set_disp_page (toggled d) d.
Proof. rewrite usbd480fb_work_eq. reflexivity. Qed.

Lemma cycle_offset_range d : 0 <= cycle_offset d < 2 ^ 32.
Proof.
  unfold cycle_offset. destruct (disp_page d =? 0).
  - change (2 ^ 32) with 4294967296. lia.
  - apply to_uint_range.
Qed.

Lemma first_address_dbg request r t :
  first_address request (dbg r ++ t) = first_address request t.
Proof. unfold dbg. destruct (r =? 0); reflexivity. Qed.

Lemma usbd480fb_work_write_address cfg env d :
  write_address (trace (usbd480fb_work cfg env d)) = Some (cycle_offset d).
Proof.
  rewrite usbd480fb_work_eq. unfold write_address, trace, snd.
  cbn [app first_address set_write_address request_address].
  rewrite Z.eqb_refl. f_equal. apply halves_address, cycle_offset_range.
Qed.

Lemma usbd480fb_work_show_address cfg env d :
  show_address (trace (usbd480fb_work cfg env d)) = Some (cycle_offset d).
Proof.
  rewrite usbd480fb_work_eq. unfold show_address, trace, snd.
  cbn [app first_address set_write_address request_address].
  change (USBD480_SET_ADDRESS =? USBD480_SET_FRAME_START_ADDRESS) with false.
  cbv iota. rewrite first_address_dbg.
  cbn [app first_address set_show_address request_address].
  rewrite Z.eqb_refl. f_equal. apply halves_address, cycle_offset_range.
Qed.

Lemma same_but_page_refl d : same_but_page d d.
Proof. unfold same_but_page. repeat split. Qed.

Lemma same_but_page_trans d1 d2 d3 :
  same_but_page d1 d2 -> same_but_page d2 d3 -> same_but_page d1 d3.
Proof.
  unfold same_but_page. intros H12 H23.
  decompose [and] H12. decompose [and] H23.
  repeat split; congruence.
Qed.

Lemma same_but_page_work cfg env d :
  same_but_page d (value (usbd480fb_work cfg env d)).
Proof. rewrite usbd480fb_work_value. unfold same_but_page. repeat split. Qed.

Lemma run_cycles_same_but_page cfg env n :
  forall k d, same_but_page d (value (run_cycles cfg env k n d)).
Proof.
  induction n as [|n IH]; intros k d.
  - apply same_but_page_refl.
  - cbn [run_cycles]. rewrite value_bind.
    eapply same_but_page_trans; [apply same_but_page_work | apply IH].
Qed.

(** ** Alternation of the page *)

Lemma toggled_of_bit d :
  disp_page d = 0 \/ disp_page d = 1 ->
  toggled d = (disp_page d + 1) mod 2.
Proof. unfold toggled. intros [-> | ->]; reflexivity. Qed.

Lemma pages_at_start_length cfg env n :
  forall k d, List.length (pages_at_start cfg env k n d) = n.
Proof.
  induction n as [|n IH]; intros k d; cbn [pages_at_start List.length].
  - reflexivity.
  - now rewrite IH.
Qed.

Lemma pages_at_start_nth cfg env n :
  forall k d i,
    disp_page d = 0 \/ disp_page d = 1 ->
    (i < n)%nat ->
    nth_error (pages_at_start cfg env k n d) i
    = Some ((disp_page d + Z.of_nat i) mod 2).
Proof.
  induction n as [|n IH]; intros k d i Hd Hi; [lia|].
  cbn [pages_at_start]. destruct i as [|i].
  - cbn [nth_error]. f_equal. destruct Hd as [-> | ->]; reflexivity.
  - cbn [nth_error]. rewrite IH; [| | lia].
    + f_equal. rewrite usbd480fb_work_value. cbn [disp_page set_disp_page].
      rewrite toggled_of_bit by exact Hd.
      rewrite Zplus_mod_idemp_l. f_equal. lia.
    + rewrite usbd480fb_work_value. cbn [disp_page set_disp_page].
      unfold toggled. destruct (disp_page d =? 0); auto.
Qed.

Lemma run_cycles_page cfg env n :
  forall k d,
    disp_page d = 0 \/ disp_page d = 1 ->
    disp_page (value (run_cycles cfg env k n d))
    = (disp_page d + Z.of_nat n) mod 2.
Proof.
  induction n as [|n IH]; intros k d Hd.
  - cbn [run_cycles ret value fst]. rewrite Z.add_0_r.
    destruct Hd as [-> | ->]; reflexivity.
  - cbn [run_cycles]. rewrite value_bind, IH.
    + rewrite usbd480fb_work_value. cbn [disp_page set_disp_page].
      rewrite toggled_of_bit by exact Hd.
      rewrite Zplus_mod_idemp_l. f_equal. lia.
    + rewrite usbd480fb_work_value. cbn [disp_page set_disp_page].
      unfold toggled. destruct (disp_page d =? 0); auto.
Qed.

(** ** Device details *)

Lemma byte_at_range buffer i : 0 <= byte_at buffer i < 256.
Proof. apply to_u8_range. Qed.

Lemma le16_range buffer i : 0 <= le16 buffer i < 65536.
Proof.
  unfold le16.
  pose proof (byte_at_range buffer i). pose proof (byte_at_range buffer (S i)).
  lia.
Qed.

Lemma usbd480_get_device_details_eq env dev :
  usbd480_get_device_details env dev =
  if buffer_ok env then
    ((0, set_device_name (strncpy (details_buffer env) 20)
           (set_height (le16 (details_buffer env) 22)
              (set_width (le16 (details_buffer env) 20) dev))),
     [kmalloc 64 true;
      usb_control_msg USB_DIR_IN USBD480_GET_DEVICE_DETAILS 0 0 64 1000]
     ++ dbg (details_result env) ++ [kfree_buffer])
  else
    ((0, dev), [kmalloc 64 false; printk "out of memory"]).
Proof.
  unfold usbd480_get_device_details, dbg, le16.
  destruct (buffer_ok env); [|reflexivity].
  rewrite !lor_shiftl_8 by apply byte_at_range.
  destruct (details_result env =? 0); reflexivity.
Qed.

Lemma probe_discover_dimensions env dev :
  let d := value (probe_discover env dev) in
  width d = (if buffer_ok (details env)
             then le16 (details_buffer (details env)) 20 else width dev) /\
  height d = (if buffer_ok (details env)
              then le16 (details_buffer (details env)) 22 else height dev).
Proof.
  unfold probe_discover. rewrite value_bind, usbd480_get_device_details_eq.
  destruct (buffer_ok (details env)); split; reflexivity.
Qed.

(** ** The probe *)

Lemma unwind_value cfg from dev info retval :
  value (probe_unwind cfg from dev info retval) = (retval, None).
Proof. unfold probe_unwind. repeat rewrite value_bind. reflexivity. Qed.

Ltac probe_step :=
  first
    [ rewrite value_bind; cbn beta iota zeta
    | rewrite unwind_value
    | match goal with
      | |- context [if ?c then _ else _] => destruct c eqn:?
      end ].

(** The session a successful probe leaves behind, from the session at the
    end of discovery. *)
Lemma probe_from_details_alive cfg env dev retval d :
  snd (value (probe_from_details cfg env dev retval)) = Some d ->
  let d1 := set_vmem_phys (virt_to_phys cfg (pages_addr env))
              (set_vmem (pages_addr env) (value (probe_discover env dev))) in
  d = set_wq true (set_disp_page 0 (set_fbinfo
        (Some (set_pseudo_palette true (probe_fb_info d1))) d1)).
Proof.
  unfold probe_from_details.
  repeat probe_step; cbn [snd value fst ret]; try discriminate.
  intros H; injection H as <-.
  apply negb_false_iff in Heqb1. cbn in Heqb4. apply negb_false_iff in Heqb4.
  cbn [vmem set_vmem]. rewrite Heqb1, Heqb4. reflexivity.
Qed.

Lemma probe_alive cfg env d :
  snd (value (usbd480_probe cfg env)) = Some d ->
  snd (value (probe_from_details cfg env (set_udev true zeroed_usbd480) 0))
  = Some d.
Proof.
  unfold usbd480_probe, create_attribute_file.
  repeat probe_step; cbn [snd value fst ret]; try discriminate.
  cbn [value ret fst] in Heqb3.
  apply negb_false_iff, Z.eqb_eq in Heqb3. rewrite Heqb3. trivial.
Qed.

Lemma probe_discover_vmemsize env dev :
  let d := value (probe_discover env dev) in
  vmemsize d = (width d * height d * 2) mod 2 ^ 32 /\ vmem d = 0.
Proof.
  unfold probe_discover. rewrite value_bind.
  destruct (value (usbd480_get_device_details (details env) dev)) as [r d'].
  cbn [value ret fst vmemsize width height vmem set_vmem set_vmemsize].
  split; [|reflexivity].
  unfold to_uint. rewrite Z.mul_mod_idemp_l by lia. reflexivity.
Qed.

(** What a successful probe establishes. *)
Lemma probe_establishes cfg env d :
  snd (value (usbd480_probe cfg env)) = Some d ->
  disp_page d = 0 /\
  vmemsize d = (width d * height d * 2) mod 2 ^ 32 /\
  vmem d = pages_addr env /\ vmem d <> 0 /\
  0 <= width d < 65536 /\ 0 <= height d < 65536.
Proof.
  intros H. apply probe_alive in H.
  pose proof H as H'. apply probe_from_details_alive in H'. cbv zeta in H'.
  pose proof (probe_discover_vmemsize env (set_udev true zeroed_usbd480)) as [Hs _].
  pose proof (probe_discover_dimensions env (set_udev true zeroed_usbd480)) as [Hw Hh].
  cbv zeta in Hs, Hw, Hh. subst d.
  cbn [disp_page vmemsize width height vmem set_wq set_disp_page set_fbinfo
       set_vmem_phys set_vmem] in *.
  assert (Wr : 0 <= width (value (probe_discover env (set_udev true zeroed_usbd480))) < 65536).
  { rewrite Hw. destruct (buffer_ok (details env)).
    - apply le16_range.
    - cbn. lia. }
  assert (Hr : 0 <= height (value (probe_discover env (set_udev true zeroed_usbd480))) < 65536).
  { rewrite Hh. destruct (buffer_ok (details env)).
    - apply le16_range.
    - cbn. lia. }
  split; [reflexivity|]. split; [assumption|]. split; [reflexivity|].
  split; [|split; assumption].
  intros E. revert H. unfold probe_from_details.
  rewrite value_bind. cbn beta iota zeta. rewrite value_bind. cbn beta iota zeta.
  cbn [vmem set_vmem]. rewrite E. cbn [Z.eqb].
  rewrite value_bind, unwind_value. discriminate.
Qed.

(** ** Claims about the refresh cycle *)

(** C10.  A scheduler cycle changes only [disp_page]: the frame-memory
    pointer, the frame-memory size, width, height, device name and cached
    brightness (and every other field of the session) are the same after
    the work function as before it, whatever the transfers return. *)
Theorem work_changes_only_disp_page cfg env d :
  let d' := value (usbd480fb_work cfg env d) in
  vmem d' = vmem d /\ vmemsize d' = vmemsize d /\
  width d' = width d /\ height d' = height d /\
  device_name d' = device_name d /\ brightness d' = brightness d /\
  vmem_phys d' = vmem_phys d /\ udev d' = udev d /\
  fbinfo d' = fbinfo d /\ wq d' = wq d /\
  d' = set_disp_page (if disp_page d =? 0 then 1 else 0) d.
Proof.
  cbv zeta. rewrite usbd480fb_work_value. unfold toggled.
  repeat split.
Qed.

(** C1, as the code has it.  Every cycle toggles [disp_page], and the
    offset passed to [usbd480_set_address] is chosen by the value
    [disp_page] holds when the cycle begins, before the toggle: a cycle
    that begins with page 0 writes at offset 0 and leaves page 1; a cycle
    that begins with a nonzero page writes at offset [vmemsize] (as a
    32-bit value) and leaves page 0. *)
Theorem write_offset_from_starting_page cfg env d :
  disp_page (value (usbd480fb_work cfg env d))
  = (if disp_page d =? 0 then 1 else 0) /\
  write_address (trace (usbd480fb_work cfg env d))
  = Some (if disp_page d =? 0 then 0 else to_uint (vmemsize d)).
Proof.
  split.
  - rewrite usbd480fb_work_value. reflexivity.
  - apply usbd480fb_work_write_address.
Qed.

(** C1 as stated fails: the session of a 480x272 display begins its first
    cycle with page 0 and announces write offset 0, not the buffer size
    261120; its second cycle begins with page 1 and announces 261120,
    not 0. *)
Lemma write_offset_not_from_toggled_page :
  snd (value (usbd480_probe config32 env_480x272)) = Some session_480x272 /\
  disp_page session_480x272 = 0 /\
  vmemsize session_480x272 = 261120 /\
  write_address (trace (usbd480fb_work config32 cycle_ok session_480x272))
  = Some 0 /\
  write_address (trace (usbd480fb_work config32 cycle_ok session_480x272))
  <> Some (vmemsize session_480x272) /\
  value (usbd480fb_work config32 cycle_ok session_480x272)
  = session_480x272_page1 /\
  disp_page session_480x272_page1 = 1 /\
  write_address (trace (usbd480fb_work config32 cycle_ok session_480x272_page1))
  = Some 261120 /\
  write_address (trace (usbd480fb_work config32 cycle_ok session_480x272_page1))
  <> Some 0.
Proof. vm_compute. repeat split; discriminate. Qed.

(** C4.  A session that the probe has started holds page 0, and over any
    [n >= 1] consecutive cycles the page found at the start of cycle [i]
    (counting from 0) is [i mod 2]: 0, 1, 0, 1, ...; after [n] cycles the
    page is [n mod 2]. *)
Theorem disp_page_alternates cfg penv cenv d0 n :
  snd (value (usbd480_probe cfg penv)) = Some d0 ->
  (1 <= n)%nat ->
  disp_page d0 = 0 /\
  List.length (pages_at_start cfg cenv 0 n d0) = n /\
  (forall i, (i < n)%nat ->
     nth_error (pages_at_start cfg cenv 0 n d0) i = Some (Z.of_nat i mod 2)) /\
  disp_page (value (run_cycles cfg cenv 0 n d0)) = Z.of_nat n mod 2.
Proof.
  intros Hp _. apply probe_establishes in Hp. destruct Hp as [H0 _].
  split; [exact H0|]. split; [apply pages_at_start_length|]. split.
  - intros i Hi. rewrite pages_at_start_nth by auto.
    rewrite H0. reflexivity.
  - rewrite run_cycles_page by auto. rewrite H0. reflexivity.
Qed.

Lemma disp_page_alternates_witness :
  pages_at_start config32 (fun _ => cycle_ok) 0 4 session_480x272
  = [0; 1; 0; 1] /\
  disp_page (value (run_cycles config32 (fun _ => cycle_ok) 0 4 session_480x272))
  = 4 mod 2.
Proof.
  split.
  - reflexivity.
  - apply (disp_page_alternates config32 env_480x272 (fun _ => cycle_ok)
             session_480x272 4).
    + reflexivity.
    + repeat constructor.
Defined.

(** C5, as the code has it.  In every cycle of a session that the probe
    has started, the write address and the show address are the same
    offset, and the calls are, in this order: set-write-address, one bulk
    transfer to endpoint 2 of [vmemsize] bytes from the frame memory,
    set-show-address, and the re-queueing of the work; the trace does not
    depend on what the bulk transfer returns.  [vmemsize] is
    [width*height*2] computed in 32-bit unsigned arithmetic; it is
    [width*height*2] itself whenever that is below 2^31. *)
Theorem refresh_cycle_steps cfg penv cenv n env d0 :
  snd (value (usbd480_probe cfg penv)) = Some d0 ->
  let d := value (run_cycles cfg cenv 0 n d0) in
  exists off,
    trace (usbd480fb_work cfg env d)
    = [set_write_address off] ++ dbg (set_address_result env) ++
      [usb_bulk_msg 2 (vmem d) (to_int (vmemsize d)) 5000;
       set_show_address off] ++ dbg (set_frame_start_result env) ++
      [queue_delayed_work (USBD480_REFRESH_JIFFIES cfg)] /\
    write_address (trace (usbd480fb_work cfg env d)) = Some off /\
    show_address (trace (usbd480fb_work cfg env d)) = Some off /\
    vmemsize d = (width d * height d * 2) mod 2 ^ 32 /\
    (width d * height d * 2 < 2 ^ 31 ->
     to_int (vmemsize d) = width d * height d * 2).
Proof.
  intros Hp d. exists (cycle_offset d).
  apply probe_establishes in Hp. destruct Hp as (_ & Hs & _ & _ & Hw & Hh).
  pose proof (run_cycles_same_but_page cfg cenv n 0%nat d0) as F.
  fold d in F. unfold same_but_page in F. decompose [and] F.
  assert (Hd : vmemsize d = (width d * height d * 2) mod 2 ^ 32) by congruence.
  split; [rewrite usbd480fb_work_eq; reflexivity|].
  split; [apply usbd480fb_work_write_address|].
  split; [apply usbd480fb_work_show_address|].
  split; [exact Hd|].
  intros Hlt.
  assert (0 <= width d * height d * 2) by nia.
  rewrite Hd, Z.mod_small by lia. apply to_int_small. lia.
Qed.

Lemma refresh_cycle_steps_witness :
  PAGE_SIZE config32
  * Z.shiftl 1 (USBD480_VIDEOMEMORDER config32 session_480x272_page1) = 262144 /\
  exists off,
    trace (usbd480fb_work config32 cycle_bulk_timeout session_480x272_page1)
    = [set_write_address off;
       usb_bulk_msg 2 (vmem session_480x272_page1) (480 * 272 * 2) 5000;
       set_show_address off;
       queue_delayed_work 2] /\
    write_address
      (trace (usbd480fb_work config32 cycle_bulk_timeout session_480x272_page1))
    = Some off /\
    show_address
      (trace (usbd480fb_work config32 cycle_bulk_timeout session_480x272_page1))
    = Some off.
Proof.
  destruct (refresh_cycle_steps config32 env_480x272 (fun _ => cycle_ok) 1
              cycle_bulk_timeout session_480x272 eq_refl)
    as (off & Ht & Hw & Hs & _ & Hlen).
  split; [reflexivity|].
  exists off. split; [|split; [exact Hw | exact Hs]].
  refine (eq_trans Ht _). rewrite Hlen; reflexivity.
Defined.

(** C5 as stated fails on the size: a device that reports 49152 x 43691
    pixels is attached with [vmemsize] 32768, the product times two
    reduced modulo 2^32, and each cycle transfers 32768 bytes, not
    49152*43691*2. *)
Lemma bulk_length_wraps :
  snd (value (usbd480_probe config32 env_49152x43691))
  = Some session_49152x43691 /\
  width session_49152x43691 = 49152 /\
  height session_49152x43691 = 43691 /\
  trace (usbd480fb_work config32 cycle_ok session_49152x43691)
  = [set_write_address 0;
     usb_bulk_msg 2 (vmem session_49152x43691) 32768 5000;
     set_show_address 0;
     queue_delayed_work 2] /\
  32768 <> 49152 * 43691 * 2.
Proof. vm_compute. repeat split; discriminate. Qed.

(** ** Claims about device details *)

Lemma strncpy_length n : forall src, List.length (strncpy src n) = n.
Proof.
  induction n as [|n IH]; intros src; [reflexivity|].
  cbn [strncpy]. destruct src as [|c rest].
  - apply repeat_length.
  - destruct (to_u8 c =? 0).
    + apply repeat_length.
    + cbn [List.length]. now rewrite IH.
Qed.

Lemma byte_at_cons c rest j : byte_at (c :: rest) (S j) = byte_at rest j.
Proof. reflexivity. Qed.

(** Up to the first NUL the copy has the bytes of the source. *)
Lemma strncpy_before_nul n :
  forall src i,
    (i < n)%nat ->
    (forall j, (j <= i)%nat -> byte_at src j <> 0) ->
    nth i (strncpy src n) 0 = byte_at src i.
Proof.
  induction n as [|n IH]; intros src i Hi Hnz; [lia|].
  cbn [strncpy]. destruct src as [|c rest].
  - exfalso. apply (Hnz 0%nat); [lia|]. reflexivity.
  - destruct (Z.eqb_spec (to_u8 c) 0) as [E|E].
    + exfalso. apply (Hnz 0%nat); [lia|]. exact E.
    + destruct i as [|i]; [reflexivity|].
      cbn [nth]. rewrite byte_at_cons. apply IH; [lia|].
      intros j Hj. rewrite <- (byte_at_cons c). apply Hnz. lia.
Qed.

(** From the first NUL on the copy is NUL. *)
Lemma strncpy_after_nul n :
  forall src i j,
    (j <= i)%nat -> (i < n)%nat ->
    byte_at src j = 0 ->
    nth i (strncpy src n) 0 = 0.
Proof.
  induction n as [|n IH]; intros src i j Hji Hi Hz; [lia|].
  cbn [strncpy]. destruct src as [|c rest].
  - apply nth_repeat.
  - destruct (Z.eqb_spec (to_u8 c) 0) as [E|E].
    + apply nth_repeat.
    + destruct j as [|j]; [contradiction|].
      destruct i as [|i]; [lia|].
      cbn [nth]. apply (IH rest i j); [lia | lia |].
      rewrite <- (byte_at_cons c). exact Hz.
Qed.

(** C6.  With the response buffer allocated, [usbd480_get_device_details]
    asks for 64 bytes into a 64-byte buffer, takes the width from bytes
    20 and 21 and the height from bytes 22 and 23, low byte first, and
    sets the name by a copy bounded to 20 bytes of the start of the
    buffer: exactly 20 bytes, equal to the buffer's up to its first NUL
    and NUL from there on. *)
Theorem device_details_layout env dev :
  buffer_ok env = true ->
  let r := usbd480_get_device_details env dev in
  let d := snd (value r) in
  let buffer := details_buffer env in
  trace r = [kmalloc 64 true;
             usb_control_msg USB_DIR_IN USBD480_GET_DEVICE_DETAILS 0 0 64 1000]
            ++ dbg (details_result env) ++ [kfree_buffer] /\
  width d = byte_at buffer 20 + 256 * byte_at buffer 21 /\
  height d = byte_at buffer 22 + 256 * byte_at buffer 23 /\
  device_name d = strncpy buffer 20 /\
  List.length (device_name d) = 20%nat /\
  (forall i, (i < 20)%nat ->
     (forall j, (j <= i)%nat -> byte_at buffer j <> 0) ->
     nth i (device_name d) 0 = byte_at buffer i) /\
  (forall i j, (j <= i)%nat -> (i < 20)%nat ->
     byte_at buffer j = 0 -> nth i (device_name d) 0 = 0).
Proof.
  intros Hok. cbv zeta. rewrite usbd480_get_device_details_eq, Hok.
  cbn [value trace fst snd width height device_name
       set_device_name set_height set_width].
  repeat split.
  - apply strncpy_length.
  - intros i Hi Hnz. apply strncpy_before_nul; assumption.
  - intros i j Hji Hi Hz. apply (strncpy_after_nul 20 _ i j); assumption.
Qed.

Lemma device_details_layout_witness :
  width (snd (value (usbd480_get_device_details
                       (details env_480x272) zeroed_usbd480))) = 224 + 256 * 1 /\
  height (snd (value (usbd480_get_device_details
                        (details env_480x272) zeroed_usbd480))) = 16 + 256 * 1 /\
  nth 3 (device_name (snd (value (usbd480_get_device_details
                                    (details env_480x272) zeroed_usbd480)))) 0
  = 68 /\
  nth 17 (device_name (snd (value (usbd480_get_device_details
                                     (details env_480x272) zeroed_usbd480)))) 0
  = 0.
Proof.
  destruct (device_details_layout (details env_480x272) zeroed_usbd480 eq_refl)
    as (_ & Hw & Hh & _ & _ & Hbefore & Hafter).
  split; [exact Hw|]. split; [exact Hh|]. split.
  - refine (eq_trans (Hbefore 3%nat _ _) eq_refl).
    + repeat constructor.
    + intros j Hj.
      destruct j as [|[|[|[|j]]]]; try (vm_compute; discriminate).
      exfalso. repeat (apply le_S_n in Hj). inversion Hj.
  - refine (Hafter 17%nat 13%nat _ _ eq_refl); repeat constructor.
Defined.

(** C3, as the code has it.  [usbd480_get_device_details] always returns
    0.  When the response buffer was allocated, a failed control transfer
    is only logged, and width, height and name are then set from the
    bytes of the buffer all the same, whatever the transfer returned; the
    session keeps the width, height and name it had only when the buffer
    itself could not be allocated. *)
Theorem details_failure_not_fatal env dev :
  let r := usbd480_get_device_details env dev in
  fst (value r) = 0 /\
  (buffer_ok env = true ->
   width (snd (value r)) = le16 (details_buffer env) 20 /\
   height (snd (value r)) = le16 (details_buffer env) 22 /\
   device_name (snd (value r)) = strncpy (details_buffer env) 20 /\
   (details_result env <> 0 ->
    trace r = [kmalloc 64 true;
               usb_control_msg USB_DIR_IN USBD480_GET_DEVICE_DETAILS 0 0 64 1000;
               dev_dbg_result (details_result env);
               kfree_buffer])) /\
  (buffer_ok env = false -> snd (value r) = dev).
Proof.
  cbv zeta. rewrite usbd480_get_device_details_eq.
  destruct (buffer_ok env).
  - split; [reflexivity|]. split; [|discriminate].
    intros _. repeat split.
    intros Hr. unfold dbg. apply Z.eqb_neq in Hr. rewrite Hr. reflexivity.
  - split; [reflexivity|]. split; [discriminate|]. reflexivity.
Qed.

Lemma details_failure_not_fatal_witness :
  width (snd (value (usbd480_get_device_details details_timeout zeroed_usbd480)))
  = le16 details_poison 20 /\
  trace (usbd480_get_device_details details_timeout zeroed_usbd480)
  = [kmalloc 64 true;
     usb_control_msg USB_DIR_IN USBD480_GET_DEVICE_DETAILS 0 0 64 1000;
     dev_dbg_result (-110);
     kfree_buffer] /\
  snd (value (usbd480_get_device_details (details env_no_buffer) zeroed_usbd480))
  = zeroed_usbd480.
Proof.
  destruct (details_failure_not_fatal details_timeout zeroed_usbd480)
    as (_ & Hok & _).
  destruct (Hok eq_refl) as (Hw & _ & _ & Ht).
  destruct (details_failure_not_fatal (details env_no_buffer) zeroed_usbd480)
    as (_ & _ & Hfail).
  split; [exact Hw|]. split.
  - apply Ht. discriminate.
  - apply Hfail. reflexivity.
Defined.

(** C3 as stated fails: a control transfer that times out over a buffer
    holding 0x6b in every byte returns success, as claimed, but leaves
    width and height at 27499 where they were 0 before the call. *)
Lemma failed_discovery_overwrites_dimensions :
  details_result details_timeout = -110 /\
  fst (value (usbd480_get_device_details details_timeout zeroed_usbd480)) = 0 /\
  width zeroed_usbd480 = 0 /\
  height zeroed_usbd480 = 0 /\
  width (snd (value (usbd480_get_device_details details_timeout zeroed_usbd480)))
  = 27499 /\
  height (snd (value (usbd480_get_device_details details_timeout zeroed_usbd480)))
  = 27499 /\
  width (snd (value (usbd480_get_device_details details_timeout zeroed_usbd480)))
  <> width zeroed_usbd480 /\
  height (snd (value (usbd480_get_device_details details_timeout zeroed_usbd480)))
  <> height zeroed_usbd480.
Proof. vm_compute. repeat split; discriminate. Qed.

(** ** Claims about the probe *)

(** With the session allocated and the four attribute files created, the
    probe goes on to discovery. *)
Lemma probe_to_details cfg env :
  dev_ok env = true ->
  (forall a, create_file_ret env a = 0) ->
  usbd480_probe cfg env =
  (value (probe_from_details cfg env (set_udev true zeroed_usbd480) 0),
   [kzalloc_dev true; usb_get_dev; usb_set_intfdata true;
    device_create_file dev_attr_brightness 0;
    device_create_file dev_attr_width 0;
    device_create_file dev_attr_height 0;
    device_create_file dev_attr_name 0;
    printk "USBD480 attached"]
   ++ trace (probe_from_details cfg env (set_udev true zeroed_usbd480) 0)).
Proof.
  intros Hd Hc. unfold usbd480_probe, create_attribute_file.
  rewrite Hd, !Hc. cbn [negb Z.eqb bind emit ret].
  destruct (probe_from_details cfg env (set_udev true zeroed_usbd480) 0)
    as [v t].
  reflexivity.
Qed.

(** The pages are requested right after discovery, for the size computed
    there. *)
Lemma probe_from_details_requests_pages cfg env dev retval :
  exists t,
    trace (probe_from_details cfg env dev retval)
    = trace (probe_discover env dev)
      ++ get_free_pages
           (USBD480_VIDEOMEMORDER cfg (value (probe_discover env dev)))
           (pages_addr env) :: t.
Proof.
  unfold probe_from_details. rewrite trace_bind. cbn beta iota zeta.
  rewrite trace_bind. cbn [trace emit snd app]. eexists. reflexivity.
Qed.

(** The probe when the pages cannot be had. *)
Lemma probe_from_details_no_pages cfg env dev retval :
  pages_addr env = 0 ->
  probe_from_details cfg env dev retval =
  ((- ENOMEM, None),
   trace (probe_discover env dev)
   ++ [get_free_pages
         (USBD480_VIDEOMEMORDER cfg (value (probe_discover env dev))) 0;
       printk ": can't allocate vmem buffer";
       device_remove_file dev_attr_brightness;
       device_remove_file dev_attr_width;
       device_remove_file dev_attr_height;
       device_remove_file dev_attr_name;
       usb_set_intfdata false;
       kfree_dev;
       printk "usbd480fb: error probe"]).
Proof.
  intros Hp. unfold probe_from_details. rewrite Hp.
  destruct (probe_discover env dev) as [d t].
  reflexivity.
Qed.

Lemma probe_discover_trace env dev :
  trace (probe_discover env dev)
  = trace (usbd480_get_device_details (details env) dev).
Proof.
  unfold probe_discover. rewrite trace_bind.
  destruct (value (usbd480_get_device_details (details env) dev)).
  cbn [trace ret snd]. apply app_nil_r.
Qed.

(** Discovery touches neither the attribute files nor the framebuffer
    layer. *)
Lemma details_trace_cases env dev :
  let t := trace (usbd480_get_device_details env dev) in
  t = [kmalloc 64 true;
       usb_control_msg USB_DIR_IN USBD480_GET_DEVICE_DETAILS 0 0 64 1000;
       kfree_buffer] \/
  t = [kmalloc 64 true;
       usb_control_msg USB_DIR_IN USBD480_GET_DEVICE_DETAILS 0 0 64 1000;
       dev_dbg_result (details_result env);
       kfree_buffer] \/
  t = [kmalloc 64 false; printk "out of memory"].
Proof.
  cbv zeta. rewrite usbd480_get_device_details_eq. unfold dbg.
  destruct (buffer_ok env); [|auto].
  destruct (details_result env =? 0); auto.
Qed.

(** C8.  When the session and its four attribute files have been created
    and the pages of the frame memory cannot be had, the probe returns
    [-ENOMEM] with no session left; the four attribute files, which exist
    when the pages are requested, have all been removed when the probe
    returns; no framebuffer was ever registered. *)
Theorem allocation_failure_unwinds cfg env :
  dev_ok env = true ->
  (forall a, create_file_ret env a = 0) ->
  pages_addr env = 0 ->
  let r := usbd480_probe cfg env in
  value r = (- ENOMEM, None) /\
  (exists t1 order t2,
     trace r = t1 ++ get_free_pages order 0 :: t2 /\
     attribute_files t1
     = [dev_attr_name; dev_attr_height; dev_attr_width; dev_attr_brightness] /\
     registered_framebuffers t1 = []) /\
  attribute_files (trace r) = [] /\
  registered_framebuffers (trace r) = [] /\
  (forall info ret, ~ In (register_framebuffer info ret) (trace r)).
Proof.
  intros Hd Hc Hp. cbv zeta.
  rewrite (probe_to_details cfg env Hd Hc).
  rewrite (probe_from_details_no_pages cfg env _ 0 Hp).
  rewrite probe_discover_trace.
  cbn [value trace fst snd].
  set (order := USBD480_VIDEOMEMORDER cfg _).
  split; [reflexivity|]. split.
  - eexists (_ ++ _), order, _. split.
    + rewrite <- app_assoc. reflexivity.
    + destruct (details_trace_cases (details env) (set_udev true zeroed_usbd480))
        as [E | [E | E]]; cbv zeta in E; rewrite E; split; reflexivity.
  - destruct (details_trace_cases (details env) (set_udev true zeroed_usbd480))
      as [E | [E | E]]; cbv zeta in E; rewrite E;
      (split; [reflexivity|]); (split; [reflexivity|]);
      intros info ret Hin; cbn [In app] in Hin;
      repeat (destruct Hin as [Hin|Hin]; [discriminate Hin|]); exact Hin.
Qed.

Lemma allocation_failure_unwinds_witness :
  value (usbd480_probe config32 env_no_pages) = (- ENOMEM, None) /\
  attribute_files (trace (usbd480_probe config32 env_no_pages)) = [] /\
  registered_framebuffers (trace (usbd480_probe config32 env_no_pages)) = [].
Proof.
  destruct (allocation_failure_unwinds config32 env_no_pages
              eq_refl (fun _ => eq_refl) eq_refl)
    as (Hv & _ & Ha & Hf & _).
  split; [exact Hv|]. split; [exact Ha | exact Hf].
Defined.

(** C2, as the code has it.  The probe makes no check of the dimensions:
    once the session and its attribute files exist it always goes on to
    request the pages, for the size computed from the width and height
    that discovery left.  These are the 16-bit values at bytes 20..23 of
    the response buffer, whether or not the control transfer succeeded,
    and 0 when the response buffer could not be allocated; the size is
    [width*height*2] modulo 2^32.  So [width > 0] and [height > 0] hold
    when the pages are requested exactly when the buffer was allocated
    and both 16-bit values are nonzero. *)
Theorem allocation_size_unchecked cfg env :
  dev_ok env = true ->
  (forall a, create_file_ret env a = 0) ->
  let d := value (probe_discover env (set_udev true zeroed_usbd480)) in
  let buffer := details_buffer (details env) in
  (exists t1 t2,
     trace (usbd480_probe cfg env)
     = t1 ++ get_free_pages (get_order cfg (PAGE_ALIGN cfg (vmemsize d)))
                            (pages_addr env) :: t2) /\
  vmemsize d = (width d * height d * 2) mod 2 ^ 32 /\
  width d = (if buffer_ok (details env) then le16 buffer 20 else 0) /\
  height d = (if buffer_ok (details env) then le16 buffer 22 else 0) /\
  (0 < width d /\ 0 < height d <->
   buffer_ok (details env) = true /\
   le16 buffer 20 <> 0 /\ le16 buffer 22 <> 0).
Proof.
  intros Hd Hc. cbv zeta.
  pose proof (probe_discover_vmemsize env (set_udev true zeroed_usbd480)) as [Hs _].
  pose proof (probe_discover_dimensions env (set_udev true zeroed_usbd480)) as [Hw Hh].
  cbv zeta in Hs, Hw, Hh.
  change (width (set_udev true zeroed_usbd480)) with 0 in Hw.
  change (height (set_udev true zeroed_usbd480)) with 0 in Hh.
  split.
  - rewrite (probe_to_details cfg env Hd Hc).
    destruct (probe_from_details_requests_pages cfg env
                (set_udev true zeroed_usbd480) 0) as [t Ht].
    change (trace (?v, ?x)) with x. rewrite Ht. unfold USBD480_VIDEOMEMORDER.
    eexists (_ ++ _), t. rewrite <- app_assoc. reflexivity.
  - split; [exact Hs|]. split; [exact Hw|]. split; [exact Hh|].
    rewrite Hw, Hh.
    pose proof (le16_range (details_buffer (details env)) 20).
    pose proof (le16_range (details_buffer (details env)) 22).
    destruct (buffer_ok (details env)).
    + split; [intros [? ?]; repeat split; lia | intros (_ & ? & ?); lia].
    + split; [lia | intros (? & _); discriminate].
Qed.

Lemma allocation_size_unchecked_witness :
  vmemsize (value (probe_discover env_480x272 (set_udev true zeroed_usbd480)))
  = (480 * 272 * 2) mod 2 ^ 32 /\
  exists t1 t2,
    trace (usbd480_probe config32 env_480x272)
    = t1 ++ get_free_pages 6 (pages_addr env_480x272) :: t2.
Proof.
  destruct (allocation_size_unchecked config32 env_480x272
              eq_refl (fun _ => eq_refl))
    as (Ht & Hs & _).
  split; [exact Hs | exact Ht].
Defined.

(** C2 as stated fails.  When the response buffer cannot be allocated, and
    when the control transfer times out over a buffer of zeros, the
    session reaches the request for pages with width 0, height 0 and size
    0, and the request is made. *)
Lemma zero_dimensions_reach_allocation :
  width (value (probe_discover env_no_buffer (set_udev true zeroed_usbd480))) = 0 /\
  height (value (probe_discover env_no_buffer (set_udev true zeroed_usbd480))) = 0 /\
  vmemsize (value (probe_discover env_no_buffer (set_udev true zeroed_usbd480))) = 0 /\
  In (get_free_pages (get_order config32 (PAGE_ALIGN config32 0)) 0)
     (trace (usbd480_probe config32 env_no_buffer)) /\
  details_result (details env_timeout_zero) = -110 /\
  width (value (probe_discover env_timeout_zero (set_udev true zeroed_usbd480))) = 0 /\
  height (value (probe_discover env_timeout_zero (set_udev true zeroed_usbd480))) = 0 /\
  vmemsize (value (probe_discover env_timeout_zero (set_udev true zeroed_usbd480))) = 0 /\
  In (get_free_pages (get_order config32 (PAGE_ALIGN config32 0)) 0)
     (trace (usbd480_probe config32 env_timeout_zero)) /\
  ~ (0 < width (value (probe_discover env_timeout_zero
                         (set_udev true zeroed_usbd480)))).
Proof.
  vm_compute.
  repeat split; try discriminate;
    repeat (first [left; reflexivity | right]).
Qed.

(** ** Claims about the brightness attribute *)

Lemma to_ulong_step cfg acc v :
  to_ulong cfg (to_ulong cfg acc * 10 + v) = to_ulong cfg (acc * 10 + v).
Proof.
  unfold to_ulong.
  assert (Hm : 2 ^ BITS_PER_LONG cfg <> 0).
  { apply Z.pow_nonzero; [lia | pose proof (BITS_PER_LONG_ge_32 cfg); lia]. }
  rewrite (Z.add_mod (acc mod _ * 10)) by exact Hm.
  rewrite (Z.add_mod (acc * 10)) by exact Hm.
  rewrite Z.mul_mod_idemp_l by exact Hm.
  reflexivity.
Qed.

(** [simple_strtoul] reads the decimal value, reduced to an
    [unsigned long]. *)
Lemma simple_strtoul_from_decimal cfg cp :
  forall acc,
    simple_strtoul_from cfg (to_ulong cfg acc) cp
    = to_ulong cfg (decimal_from acc cp).
Proof.
  induction cp as [|c rest IH]; intros acc; cbn [simple_strtoul_from decimal_from].
  - reflexivity.
  - destruct (digit_value c) as [v|]; [|reflexivity].
    rewrite to_ulong_step. apply IH.
Qed.

Lemma simple_strtoul_decimal cfg cp :
  simple_strtoul cfg cp = to_ulong cfg (decimal_value cp).
Proof.
  unfold simple_strtoul, decimal_value.
  rewrite <- simple_strtoul_from_decimal. reflexivity.
Qed.

Lemma to_u8_to_ulong cfg x : to_u8 (to_ulong cfg x) = to_u8 x.
Proof.
  unfold to_u8, to_ulong. apply mod_pow2_mod_pow2.
  pose proof (BITS_PER_LONG_ge_32 cfg). lia.
Qed.

Lemma to_u16_to_int_to_ulong cfg x :
  to_u16 (to_uint (to_int (to_ulong cfg x))) = to_u16 x.
Proof.
  rewrite to_u16_to_uint. unfold to_u16.
  rewrite <- (mod_pow2_mod_pow2 (to_int (to_ulong cfg x)) 16 32) by lia.
  rewrite to_int_to_ulong. apply mod_pow2_mod_pow2. lia.
Qed.

(** C7.  A write to the brightness attribute accepts any text: the
    unsigned integer at its start is taken without a range check, its low
    8 bits are stored as the cached brightness whatever the control
    transfer returns, the value is passed on to [usbd480_set_brightness]
    (which sends its low 16 bits), and the write reports all [count] bytes
    consumed.  For the text 300 the stored value is 44, that is 300 modulo
    256, and not 255. *)
Theorem brightness_write_stores_low_byte cfg result buf count d :
  let r := set_brightness cfg result buf count d in
  fst (value r) = count /\
  brightness (snd (value r)) = decimal_value buf mod 256 /\
  trace r = usb_control_msg USB_DIR_OUT USBD480_SET_BRIGHTNESS
              (decimal_value buf mod 65536) 0 0 1000 :: dbg result /\
  decimal_value "300" = 300 /\
  brightness (snd (value (set_brightness cfg result "300" count d))) = 44 /\
  brightness (snd (value (set_brightness cfg result "300" count d))) <> 255 /\
  300 mod 256 = 44.
Proof.
  assert (G : forall b,
             set_brightness cfg result b count d =
             ((count, set_brightness_field (decimal_value b mod 256) d),
              usb_control_msg USB_DIR_OUT USBD480_SET_BRIGHTNESS
                (decimal_value b mod 65536) 0 0 1000 :: dbg result)).
  { intros b. unfold set_brightness, usbd480_set_brightness, dbg.
    rewrite to_u8_to_int, simple_strtoul_decimal, to_u8_to_ulong,
      to_u16_to_int_to_ulong.
    unfold to_u8, to_u16. change (2 ^ 8) with 256. change (2 ^ 16) with 65536.
    destruct (result =? 0); reflexivity. }
  cbv zeta. rewrite !G.
  cbn [value fst snd trace brightness set_brightness_field].
  repeat split. discriminate.
Qed.

(** ** Claims about detach *)

Lemma page_loop_events cfg f fuel :
  forall addr size,
    Forall (fun e => exists a, e = f a) (trace (page_loop cfg f fuel addr size)).
Proof.
  induction fuel as [|fuel IH]; intros addr size; cbn [page_loop].
  - constructor.
  - destruct (size >? 0); [|constructor].
    rewrite trace_bind. cbn [trace emit snd app].
    constructor; [eexists; reflexivity | apply IH].
Qed.

(** The fuel given by [for_each_page] is enough: over [n] whole pages the
    loop ends by its own test after [n] rounds, and more fuel changes
    nothing. *)
Lemma page_loop_fuel cfg f n :
  0 < PAGE_SIZE cfg ->
  forall addr k,
    Z.of_nat n * PAGE_SIZE cfg < 2 ^ (BITS_PER_LONG cfg - 1) ->
    page_loop cfg f (n + k) addr (Z.of_nat n * PAGE_SIZE cfg)
    = page_loop cfg f n addr (Z.of_nat n * PAGE_SIZE cfg) /\
    List.length (trace (page_loop cfg f n addr (Z.of_nat n * PAGE_SIZE cfg))) = n.
Proof.
  intros Hps. induction n as [|n IH]; intros addr k Hlt.
  - cbn [Nat.add Z.of_nat Z.mul page_loop]. split; [|reflexivity].
    destruct k; reflexivity.
  - cbn [Nat.add page_loop].
    assert (Hpos : (Z.of_nat (S n) * PAGE_SIZE cfg >? 0) = true).
    { apply Z.gtb_lt. nia. }
    rewrite Hpos.
    assert (Hstep : to_long cfg (Z.of_nat (S n) * PAGE_SIZE cfg - PAGE_SIZE cfg)
                    = Z.of_nat n * PAGE_SIZE cfg).
    { replace (Z.of_nat (S n) * PAGE_SIZE cfg - PAGE_SIZE cfg)
        with (Z.of_nat n * PAGE_SIZE cfg) by lia.
      unfold to_long, to_ulong.
      pose proof (BITS_PER_LONG_ge_32 cfg).
      assert (2 ^ BITS_PER_LONG cfg = 2 * 2 ^ (BITS_PER_LONG cfg - 1)).
      { rewrite <- Z.pow_succ_r by lia. f_equal. lia. }
      assert (0 <= Z.of_nat n * PAGE_SIZE cfg) by nia.
      rewrite Z.mod_small by nia.
      destruct (Z.ltb_spec (Z.of_nat n * PAGE_SIZE cfg)
                           (2 ^ (BITS_PER_LONG cfg - 1))); [reflexivity | nia]. }
    rewrite Hstep.
    destruct (IH (to_ulong cfg (addr + PAGE_SIZE cfg)) k) as [E L]; [nia|].
    rewrite E. split; [reflexivity|].
    rewrite trace_bind. cbn [trace emit snd app List.length]. f_equal.
    exact L.
Qed.

Lemma released_only_when_stopped_app s t1 t2 :
  released_only_when_stopped s (t1 ++ t2)
  = released_only_when_stopped s t1
    && released_only_when_stopped (sched_after s t1) t2.
Proof.
  revert s. induction t1 as [|e t1 IH]; intros s.
  - reflexivity.
  - cbn [app released_only_when_stopped sched_after fold_left].
    rewrite IH. unfold sched_after. apply andb_assoc.
Qed.

Lemma sched_after_app s t1 t2 :
  sched_after s (t1 ++ t2) = sched_after (sched_after s t1) t2.
Proof. apply fold_left_app. Qed.

(** Clearing the page flags neither releases anything nor touches the
    refresh task. *)
Lemma clear_pages_neutral t :
  Forall (fun e => exists a, e = ClearPageReserved a) t ->
  forall s, sched_after s t = s /\ released_only_when_stopped s t = true.
Proof.
  induction 1 as [|e t [a ->] _ IH]; intros s.
  - split; reflexivity.
  - cbn [sched_after fold_left released_only_when_stopped is_release sched_step].
    apply IH.
Qed.

Lemma usbd480_disconnect_trace cfg dev :
  trace (usbd480_disconnect cfg dev)
  = [cancel_delayed_work_sync; flush_workqueue; destroy_workqueue;
     device_remove_file dev_attr_brightness;
     device_remove_file dev_attr_width;
     device_remove_file dev_attr_height;
     device_remove_file dev_attr_name]
    ++ match fbinfo dev with
       | Some _ =>
           [unregister_framebuffer; framebuffer_release]
           ++ trace (for_each_page cfg ClearPageReserved dev)
           ++ [free_pages (vmem dev) (USBD480_VIDEOMEMORDER cfg dev)]
       | None => []
       end
    ++ [usb_set_intfdata false; usb_put_dev; kfree_dev;
        printk "USBD480 disconnected"].
Proof.
  unfold usbd480_disconnect, remove_attribute_files.
  destruct (fbinfo dev).
  - destruct (for_each_page cfg ClearPageReserved dev) as [[] t].
    cbn [bind emit ret trace snd app]. rewrite <- app_assoc. reflexivity.
  - reflexivity.
Qed.

(** C9.  In the detach sequence the first three calls are
    [cancel_delayed_work_sync], [flush_workqueue] and [destroy_workqueue];
    every release of the frame memory or of the session comes later in
    the sequence, at a point where the refresh task is neither pending
    nor executing and its worker thread is gone, and this holds whatever
    the task was doing when detach began; the task is stopped when detach
    returns, the session is freed, and the frame memory of a registered
    session is freed. *)
Theorem detach_stops_task_before_release cfg dev s :
  let t := trace (usbd480_disconnect cfg dev) in
  (exists rest,
     t = cancel_delayed_work_sync :: flush_workqueue :: destroy_workqueue
         :: rest) /\
  released_only_when_stopped s t = true /\
  stopped (sched_after s t) = true /\
  In kfree_dev t /\
  match fbinfo dev with
  | Some _ => In (free_pages (vmem dev) (USBD480_VIDEOMEMORDER cfg dev)) t
  | None => True
  end /\
  (forall t1 e t2,
     t = t1 ++ e :: t2 -> is_release e = true ->
     In cancel_delayed_work_sync t1 /\ In flush_workqueue t1 /\
     In destroy_workqueue t1).
Proof.
  cbv zeta.
  assert (Hhead : exists rest,
             trace (usbd480_disconnect cfg dev)
             = cancel_delayed_work_sync :: flush_workqueue
               :: destroy_workqueue :: rest).
  { rewrite usbd480_disconnect_trace. eexists. reflexivity. }
  split; [exact Hhead|].
  pose proof (clear_pages_neutral _
    (page_loop_events cfg ClearPageReserved
       (Z.to_nat (Z.shiftl 1 (USBD480_VIDEOMEMORDER cfg dev))) (vmem dev)
       (to_long cfg (PAGE_SIZE cfg * Z.shiftl 1 (USBD480_VIDEOMEMORDER cfg dev)))))
    as Hneutral.
  fold (for_each_page cfg ClearPageReserved dev) in Hneutral.
  split; [|split; [|split; [|split]]].
  - rewrite usbd480_disconnect_trace. destruct (fbinfo dev).
    + rewrite !released_only_when_stopped_app, !sched_after_app.
      cbn [released_only_when_stopped sched_after fold_left sched_step
           is_release work_pending work_executing worker_alive].
      destruct (Hneutral (mk_sched false false false)) as [-> ->].
      reflexivity.
    + reflexivity.
  - rewrite usbd480_disconnect_trace. destruct (fbinfo dev).
    + rewrite !sched_after_app.
      cbn [sched_after fold_left sched_step
           work_pending work_executing worker_alive].
      destruct (Hneutral (mk_sched false false false)) as [-> _].
      reflexivity.
    + reflexivity.
  - rewrite usbd480_disconnect_trace.
    apply in_or_app. right. apply in_or_app. right.
    cbn [In]. auto.
  - rewrite usbd480_disconnect_trace. destruct (fbinfo dev); [|exact I].
    apply in_or_app. right. apply in_or_app. left.
    apply in_or_app. right. apply in_or_app. right.
    cbn [In]. auto.
  - destruct Hhead as [rest ->]. intros t1 e t2 Ht He.
    destruct t1 as [|a [|b [|c t1]]]; cbn [app] in Ht;
      injection Ht as <-; subst; try discriminate He.
    cbn [In]. repeat split; auto.
Qed.

Lemma detach_stops_task_before_release_witness :
  In cancel_delayed_work_sync
     (firstn 73 (trace (usbd480_disconnect config32 session_480x272))) /\
  In flush_workqueue
     (firstn 73 (trace (usbd480_disconnect config32 session_480x272))) /\
  In destroy_workqueue
     (firstn 73 (trace (usbd480_disconnect config32 session_480x272))).
Proof.
  destruct (detach_stops_task_before_release config32 session_480x272
              (mk_sched true true true))
    as (_ & _ & _ & _ & _ & Horder).
  apply (Horder _ (free_pages (vmem session_480x272)
                     (USBD480_VIDEOMEMORDER config32 session_480x272))
                (skipn 74 (trace (usbd480_disconnect config32 session_480x272)))).
  - vm_compute. reflexivity.
  - reflexivity.
Defined.

(** * Further properties of the driver *)

(** ** Reading and writing the attributes *)

Lemma digit_value_digit_char n :
  0 <= n < 10 -> digit_value (digit_char n) = Some n.
Proof.
  intros H.
  rewrite <- (Z2Nat.id n) by lia.
  assert (Hn : (Z.to_nat n < 10)%nat) by lia.
  generalize dependent (Z.to_nat n). clear.
  intros m Hm.
  do 10 (destruct m as [|m]; [reflexivity|]). lia.
Qed.

(** Reading back the digits written by [number]. *)
Lemma decimal_from_number fuel :
  forall n a tail,
    0 <= n < 10 ^ (Z.of_nat fuel + 1) ->
    exists k,
      decimal_from a (number fuel n tail) = decimal_from (a * 10 ^ k + n) tail.
Proof.
  induction fuel as [|fuel IH]; intros n a tail Hn.
  - exists 1. cbn [number decimal_from].
    rewrite digit_value_digit_char by (cbn in Hn; lia). reflexivity.
  - cbn [number]. destruct (Z.ltb_spec n 10) as [Hlt|Hge].
    + exists 1. cbn [decimal_from].
      rewrite digit_value_digit_char by lia. reflexivity.
    + assert (Hpow : 10 ^ (Z.of_nat (S fuel) + 1) = 10 * 10 ^ (Z.of_nat fuel + 1)).
      { rewrite <- Z.pow_succ_r by lia. f_equal. lia. }
      destruct (IH (n / 10) a (String (digit_char (n mod 10)) tail)) as [k Hk].
      { split; [apply Z.div_pos; lia|].
        apply Z.div_lt_upper_bound; lia. }
      destruct (Z.le_gt_cases 0 k) as [Hk0|Hk0].
      * exists (k + 1). rewrite Hk. cbn [decimal_from].
        rewrite digit_value_digit_char by (apply Z.mod_pos_bound; lia).
        f_equal. rewrite Z.pow_add_r by lia.
        pose proof (Z.div_mod n 10). change (10 ^ 1) with 10. lia.
      * exists k. rewrite Hk. cbn [decimal_from].
        rewrite digit_value_digit_char by (apply Z.mod_pos_bound; lia).
        f_equal. rewrite Z.pow_neg_r by lia.
        pose proof (Z.div_mod n 10). lia.
Qed.

(** The text of a non-negative [int] reads back as that number. *)
Lemma decimal_value_sprintf_d v :
  0 <= v < 2 ^ 31 -> decimal_value (sprintf_d v) = v.
Proof.
  intros Hv. unfold sprintf_d, decimal_value.
  destruct (Z.ltb_spec v 0); [lia|].
  destruct (decimal_from_number 9 v 0 newline) as [k Hk].
  { change (2 ^ 31) with 2147483648 in Hv.
    change (10 ^ (Z.of_nat 9 + 1)) with 10000000000. lia. }
  rewrite Hk. cbn [Z.mul Z.add]. reflexivity.
Qed.

Lemma set_brightness_eq cfg result buf count d :
  set_brightness cfg result buf count d =
  ((count, set_brightness_field (decimal_value buf mod 256) d),
   usb_control_msg USB_DIR_OUT USBD480_SET_BRIGHTNESS
     (decimal_value buf mod 65536) 0 0 1000 :: dbg result).
Proof.
  unfold set_brightness, usbd480_set_brightness, dbg.
  rewrite to_u8_to_int, simple_strtoul_decimal, to_u8_to_ulong,
    to_u16_to_int_to_ulong.
  unfold to_u8, to_u16. change (2 ^ 8) with 256. change (2 ^ 16) with 65536.
  destruct (result =? 0); reflexivity.
Qed.

Lemma length_number_byte n :
  0 <= n < 256 ->
  (2 <= String.length (number 9 n newline) <= 4)%nat.
Proof.
  intros Hn. cbn [number].
  destruct (Z.ltb_spec n 10); [cbn; lia|].
  destruct (Z.ltb_spec (n / 10) 10); [cbn; lia|].
  assert (Hlt : n / 10 / 10 < 10).
  { apply Z.div_lt_upper_bound; [lia|].
    apply Z.div_lt_upper_bound; lia. }
  apply Z.ltb_lt in Hlt. rewrite Hlt. cbn. lia.
Qed.

(** X1.  Reading the brightness attribute after a write of any text gives
    the decimal text of the written number modulo 256 and a newline, two
    to four characters in all, and the return value is that count; the
    text reads back as the cached value. *)
Theorem brightness_read_after_write cfg result buf count d :
  let d' := snd (value (set_brightness cfg result buf count d)) in
  fst (show_brightness d') = sprintf_d (decimal_value buf mod 256) /\
  decimal_value (fst (show_brightness d')) = decimal_value buf mod 256 /\
  snd (show_brightness d')
  = Z.of_nat (String.length (fst (show_brightness d'))) /\
  2 <= snd (show_brightness d') <= 4.
Proof.
  cbv zeta. rewrite set_brightness_eq.
  cbn [value fst snd show_brightness brightness set_brightness_field].
  pose proof (Z.mod_pos_bound (decimal_value buf) 256 ltac:(lia)) as Hb.
  split; [reflexivity|]. split.
  - apply decimal_value_sprintf_d. change (2 ^ 31) with 2147483648. lia.
  - split; [reflexivity|].
    unfold sprintf_d. destruct (Z.ltb_spec (decimal_value buf mod 256) 0); [lia|].
    pose proof (length_number_byte _ Hb). lia.
Qed.




(** X4.  After a discovery whose response buffer was allocated, the width
    and height attributes show the 16-bit values of bytes 20..23 of the
    response: their texts read back as those numbers. *)
Theorem dimensions_shown_after_discovery env dev :
  buffer_ok env = true ->
  let d := snd (value (usbd480_get_device_details env dev)) in
  fst (show_width d) = sprintf_d (le16 (details_buffer env) 20) /\
  fst (show_height d) = sprintf_d (le16 (details_buffer env) 22) /\
  decimal_value (fst (show_width d)) = le16 (details_buffer env) 20 /\
  decimal_value (fst (show_height d)) = le16 (details_buffer env) 22.
Proof.
  intros Hok. cbv zeta. rewrite usbd480_get_device_details_eq, Hok.
  cbn [value fst snd show_width show_height width height
       set_device_name set_height set_width].
  pose proof (le16_range (details_buffer env) 20).
  pose proof (le16_range (details_buffer env) 22).
  rewrite !to_int_small by (change (2 ^ 31) with 2147483648; lia).
  repeat split;
    apply decimal_value_sprintf_d; change (2 ^ 31) with 2147483648; lia.
Qed.

Lemma dimensions_shown_after_discovery_witness :
  decimal_value
    (fst (show_width (snd (value (usbd480_get_device_details
                                    (details env_480x272) zeroed_usbd480)))))
  = 480 /\
  decimal_value
    (fst (show_height (snd (value (usbd480_get_device_details
                                     (details env_480x272) zeroed_usbd480)))))
  = 272.
Proof.
  destruct (dimensions_shown_after_discovery (details env_480x272)
              zeroed_usbd480 eq_refl) as (_ & _ & Hw & Hh).
  split; [exact Hw | exact Hh].
Defined.

Lemma c_string_strncpy_none n :
  forall src,
    (forall j, (j < n)%nat -> byte_at src j <> 0) ->
    c_string (strncpy src n) = None.
Proof.
  induction n as [|n IH]; intros src Hnz; [reflexivity|].
  cbn [strncpy]. destruct src as [|c rest].
  - exfalso. apply (Hnz 0%nat); [lia | reflexivity].
  - destruct (Z.eqb_spec (to_u8 c) 0) as [E|E].
    + exfalso. apply (Hnz 0%nat); [lia | exact E].
    + cbn [c_string]. apply Z.eqb_neq in E. rewrite E.
      rewrite IH; [reflexivity|].
      intros j Hj. rewrite <- (byte_at_cons c). apply Hnz. lia.
Qed.

Lemma c_string_repeat_0 n : c_string (repeat 0 (S n)) = Some [].
Proof. reflexivity. Qed.

Lemma c_string_strncpy_some n :
  forall src j,
    (j < n)%nat ->
    byte_at src j = 0 ->
    (forall i, (i < j)%nat -> byte_at src i <> 0) ->
    c_string (strncpy src n) = Some (map to_u8 (firstn j src)) /\
    List.length (firstn j src) = j.
Proof.
  induction n as [|n IH]; intros src j Hj Hz Hnz; [lia|].
  cbn [strncpy]. destruct src as [|c rest].
  - rewrite c_string_repeat_0, firstn_nil. split; [reflexivity|].
    destruct j as [|j]; [reflexivity|].
    exfalso. apply (Hnz 0%nat); [lia | reflexivity].
  - destruct (Z.eqb_spec (to_u8 c) 0) as [E|E].
    + rewrite c_string_repeat_0.
      destruct j as [|j]; [split; reflexivity|].
      exfalso. apply (Hnz 0%nat); [lia | exact E].
    + destruct j as [|j]; [contradiction|].
      destruct (IH rest j) as [Hc Hl].
      * lia.
      * rewrite <- (byte_at_cons c). exact Hz.
      * intros i Hi. rewrite <- (byte_at_cons c). apply Hnz. lia.
      * cbn [c_string firstn map List.length].
        apply Z.eqb_neq in E. rewrite E, Hc, Hl. split; reflexivity.
Qed.

Lemma length_string_of_bytes cs :
  String.length (string_of_bytes cs) = List.length cs.
Proof. induction cs as [|c cs IH]; cbn; [reflexivity | now rewrite IH]. Qed.

Lemma length_append_newline s :
  String.length (s ++ newline)%string = S (String.length s).
Proof. induction s as [|c s IH]; cbn; [reflexivity | now rewrite IH]. Qed.

(** X5.  After a discovery whose response buffer was allocated: if none of
    the first 20 bytes of the response is NUL, [device_name] holds no
    terminator and the read of the name attribute runs past the field; if
    byte [j] is the first NUL, the attribute shows the [j] bytes before it
    and a newline, and returns [j + 1], at most 20. *)
Theorem name_shown_after_discovery env dev :
  buffer_ok env = true ->
  let d := snd (value (usbd480_get_device_details env dev)) in
  let buffer := details_buffer env in
  ((forall j, (j < 20)%nat -> byte_at buffer j <> 0) -> show_name d = None) /\
  (forall j,
     (j < 20)%nat -> byte_at buffer j = 0 ->
     (forall i, (i < j)%nat -> byte_at buffer i <> 0) ->
     show_name d
     = Some ((string_of_bytes (map to_u8 (firstn j buffer)) ++ newline)%string,
             Z.of_nat j + 1)).
Proof.
  intros Hok. cbv zeta. rewrite usbd480_get_device_details_eq, Hok.
  cbn [value fst snd]. unfold show_name.
  cbn [device_name set_device_name]. split.
  - intros Hnz. rewrite c_string_strncpy_none by exact Hnz. reflexivity.
  - intros j Hj Hz Hnz.
    destruct (c_string_strncpy_some 20 (details_buffer env) j Hj Hz Hnz)
      as [Hc Hl].
    rewrite Hc. cbv zeta. f_equal. f_equal.
    rewrite length_append_newline, length_string_of_bytes, length_map, Hl.
    lia.
Qed.

Lemma name_shown_after_discovery_witness :
  show_name (snd (value (usbd480_get_device_details
                           details_timeout zeroed_usbd480))) = None /\
  show_name (snd (value (usbd480_get_device_details
                           (details env_480x272) zeroed_usbd480)))
  = Some ((string_of_bytes (map to_u8 (firstn 13 details_480x272)) ++ newline)%string,
          14).
Proof.
  destruct (name_shown_after_discovery details_timeout zeroed_usbd480 eq_refl)
    as [Hnone _].
  destruct (name_shown_after_discovery (details env_480x272) zeroed_usbd480
              eq_refl) as [_ Hsome].
  split.
  - apply Hnone. intros j Hj.
    do 20 (destruct j as [|j]; [vm_compute; discriminate|]).
    exfalso. do 20 (apply le_S_n in Hj). inversion Hj.
  - apply (Hsome 13%nat).
    + repeat constructor.
    + reflexivity.
    + intros i Hi.
      do 13 (destruct i as [|i]; [vm_compute; discriminate|]).
      exfalso. do 13 (apply le_S_n in Hi). inversion Hi.
Defined.

(** ** The probe, path by path *)

Lemma for_each_page_flags cfg f dev :
  (forall a, is_page_flag (f a) = true) ->
  Forall (fun e => is_page_flag e = true) (trace (for_each_page cfg f dev)).
Proof.
  intros Hf. unfold for_each_page.
  eapply Forall_impl; [|apply page_loop_events].
  intros e [a ->]. apply Hf.
Qed.

Lemma observe_fold_from t :
  forall a f r s,
    fold_left view_step t (a, f, r, s)
    = (fold_left attr_step t a, fold_left fb_step t f,
       fold_left res_step t r, fold_left sched_step t s).
Proof.
  induction t as [|e t IH]; intros a f r s; [reflexivity|].
  cbn [fold_left view_step]. apply IH.
Qed.

Lemma observe_fold t : observe t = fold_left view_step t no_view.
Proof. unfold no_view. rewrite observe_fold_from. reflexivity. Qed.

Lemma view_step_page_flag v e : is_page_flag e = true -> view_step v e = v.
Proof.
  destruct v as [[[a f] r] s]. destruct e; try discriminate; reflexivity.
Qed.

(** The page flags change nothing of what is observed. *)
Lemma view_neutral_page_flags t :
  Forall (fun e => is_page_flag e = true) t ->
  forall v, fold_left view_step t v = v.
Proof.
  induction 1 as [|e t He _ IH]; intros v; [reflexivity|].
  cbn [fold_left]. rewrite view_step_page_flag by exact He. apply IH.
Qed.

Lemma view_neutral_for_each_page cfg f dev :
  (forall a, is_page_flag (f a) = true) ->
  forall v, fold_left view_step (trace (for_each_page cfg f dev)) v = v.
Proof.
  intros Hf. apply view_neutral_page_flags, for_each_page_flags, Hf.
Qed.

(** Discovery leaves nothing behind: its buffer is freed again. *)
Lemma view_neutral_details env dev :
  forall v,
    fold_left view_step (trace (usbd480_get_device_details env dev)) v = v.
Proof.
  intros [[[a f] r] s]. destruct r.
  destruct (details_trace_cases env dev) as [E | [E | E]];
    cbv zeta in E; rewrite E; cbn [fold_left view_step attr_step fb_step
      res_step sched_step res_session res_udev res_intfdata res_buffer
      res_pages res_fb_info res_palette res_cmap];
    rewrite ?Z.add_simpl_r; reflexivity.
Qed.

Lemma remove_block_head b l : remove_block b (b :: l) = l.
Proof.
  cbn [remove_block]. unfold same_block. rewrite !Z.eqb_refl. reflexivity.
Qed.

(** Follow the probe along each of its paths: [E : r = usbd480_probe cfg env]
    becomes, on every path, the value and the trace of that path, with the
    traces of discovery and of the page loops kept as they are. *)
Ltac probe_cases E :=
  unfold usbd480_probe, create_attribute_file, probe_from_details,
    probe_discover, USBD480_VIDEOMEMORDER in E;
  repeat first
    [ progress cbn [bind emit ret when runs label_index Nat.leb negb app
                    fst snd probe_unwind remove_attribute_files
                    vmem vmemsize set_vmem set_vmem_phys set_vmemsize set_wq wq
                    set_fbinfo set_disp_page pseudo_palette set_pseudo_palette
                    USBD480_VIDEOMEMORDER] in E
    | match type of E with
      | context [if ?c then _ else _] =>
          lazymatch c with
          | negb ?b => destruct b eqn:?
          | _ => destruct c eqn:?
          end
      | context [usbd480_get_device_details ?e ?d] =>
          let H := fresh "Hdetails" in
          pose proof (view_neutral_details e d) as H;
          destruct (usbd480_get_device_details e d) as [[? ?dev] ?td];
          cbn [trace snd] in H
      | context [for_each_page ?c SetPageReserved ?d] =>
          let H := fresh "Hset" in
          pose proof (view_neutral_for_each_page c SetPageReserved d
                        (fun _ => eq_refl)) as H;
          destruct (for_each_page c SetPageReserved d) as [[] ?tS];
          cbn [trace snd] in H
      | context [for_each_page ?c ClearPageReserved ?d] =>
          let H := fresh "Hclr" in
          pose proof (view_neutral_for_each_page c ClearPageReserved d
                        (fun _ => eq_refl)) as H;
          destruct (for_each_page c ClearPageReserved d) as [[] ?tC];
          cbn [trace snd] in H
      end ].

Ltac use_tests :=
  repeat match goal with
         | H : ?b = true |- context [?b] => rewrite H
         | H : ?b = false |- context [?b] => rewrite H
         end.

Ltac zero_tests :=
  repeat match goal with
         | H : (?x =? 0) = true |- _ => apply Z.eqb_eq in H; rewrite ?H
         end.

(** Run [view_step] over a trace, one event at a time, passing over the
    runs of events that change nothing. *)
Ltac view_steps :=
  repeat match goal with
         | |- context [fold_left view_step (?e :: ?t) ?v] =>
             change (fold_left view_step (e :: t) v)
               with (fold_left view_step t (view_step v e));
             repeat (progress
                       (cbn [view_step attr_step fb_step sched_step res_step
                             filter existsb dev_attr_eqb negb andb orb tl
                             res_session res_udev res_intfdata res_buffer
                             res_pages res_fb_info res_palette res_cmap
                             work_pending work_executing worker_alive
                             Z.eqb Z.ltb Z.compare];
                        use_tests; rewrite ?remove_block_head))
         | |- context [fold_left view_step ((?a ++ ?b) ++ ?c) ?v] =>
             rewrite <- (app_assoc a b c)
         | H : forall v, fold_left view_step ?seg v = v
           |- context [fold_left view_step (?seg ++ ?t) ?v] =>
             rewrite (fold_left_app view_step seg t v), (H v)
         | |- context [fold_left view_step ([] ++ ?t) ?v] =>
             change ([] ++ t) with t
         | |- context [fold_left view_step ((?e :: ?a) ++ ?t) ?v] =>
             change ((e :: a) ++ t) with (e :: (a ++ t))
         end;
  cbn [fold_left].

(** What is observed after the probe, on every path. *)
Lemma probe_observed cfg env :
  match snd (value (usbd480_probe cfg env)) with
  | None =>
      observe (trace (usbd480_probe cfg env))
      = ([], [],
         mk_resources 0 (if dev_ok env then 1 else 0) false 0 [] 0 0 0,
         sched_none)
  | Some d =>
      fst (value (usbd480_probe cfg env)) = 0 /\
      observe (trace (usbd480_probe cfg env))
      = ([dev_attr_name; dev_attr_height; dev_attr_width; dev_attr_brightness],
         match fbinfo d with
         | Some info => if register_ret env =? 0 then [info] else []
         | None => []
         end,
         mk_resources 1 1 true 0 [(vmem d, USBD480_VIDEOMEMORDER cfg d)] 1 1 1,
         mk_sched true false true)
  end.
Proof.
  remember (usbd480_probe cfg env) as r eqn:E.
  probe_cases E.
  all: subst r; cbn [value trace fst snd]; try (split; [reflexivity|]).
  all: zero_tests; rewrite observe_fold;
    unfold no_view, no_resources, sched_none; use_tests; view_steps.
  all: unfold USBD480_VIDEOMEMORDER;
    cbn [fbinfo vmem vmemsize set_wq set_disp_page set_fbinfo set_vmem_phys
         set_vmem set_vmemsize].
  all: try reflexivity.
  all: destruct (Z.eqb_spec (register_ret env) 0) as [E0|E0];
    try reflexivity.
  all: exfalso;
    match goal with
    | H : (register_ret _ <? 0) = true |- _ => apply Z.ltb_lt in H; lia
    end.
Qed.

Lemma observe_parts t a f r s :
  observe t = (a, f, r, s) ->
  attribute_files t = a /\ registered_framebuffers t = f /\
  held t = r /\ sched_after sched_none t = s.
Proof. unfold observe. intros H. injection H as <- <- <- <-. auto. Qed.

Lemma probe_session_fbinfo cfg env d :
  snd (value (usbd480_probe cfg env)) = Some d -> fbinfo d <> None.
Proof.
  intros Hsome.
  apply probe_alive, probe_from_details_alive in Hsome. cbv zeta in Hsome.
  rewrite Hsome. discriminate.
Qed.

Lemma probe_session_zero cfg env d :
  snd (value (usbd480_probe cfg env)) = Some d ->
  fst (value (usbd480_probe cfg env)) = 0.
Proof.
  intros Hsome. pose proof (probe_observed cfg env) as H.
  rewrite Hsome in H. apply H.
Qed.

(** X6.  A probe that leaves no session leaves nothing else either: when
    it returns, no attribute file exists, no framebuffer is registered,
    no pages, response buffer, [fb_info], pseudo palette or colour map is
    held, the session structure has been freed, the interface data is
    cleared, and no work is pending on any worker thread. *)
Theorem probe_failure_releases cfg env :
  snd (value (usbd480_probe cfg env)) = None ->
  let t := trace (usbd480_probe cfg env) in
  attribute_files t = [] /\
  registered_framebuffers t = [] /\
  res_pages (held t) = [] /\
  res_session (held t) = 0 /\
  res_intfdata (held t) = false /\
  res_buffer (held t) = 0 /\
  res_fb_info (held t) = 0 /\
  res_palette (held t) = 0 /\
  res_cmap (held t) = 0 /\
  stopped (sched_after sched_none t) = true.
Proof.
  intros Hnone. pose proof (probe_observed cfg env) as H.
  rewrite Hnone in H. apply observe_parts in H.
  destruct H as (Ha & Hf & Hr & Hs). cbv zeta.
  rewrite Ha, Hf, Hr, Hs. repeat split.
Qed.

Lemma probe_failure_releases_witness :
  attribute_files (trace (usbd480_probe config32 env_timeout_zero)) = [] /\
  res_pages (held (trace (usbd480_probe config32 env_timeout_zero))) = [] /\
  res_session (held (trace (usbd480_probe config32 env_timeout_zero))) = 0.
Proof.
  destruct (probe_failure_releases config32 env_timeout_zero eq_refl)
    as (Ha & _ & Hp & Hs & _).
  split; [exact Ha|]. split; [exact Hp | exact Hs].
Defined.

(** X7.  A probe that fails after the session structure was allocated
    keeps the reference it took on the USB device: on every such path
    [usb_get_dev] is not matched by [usb_put_dev], so one reference is
    still held when the probe returns. *)
Theorem probe_failure_keeps_usb_reference cfg env :
  snd (value (usbd480_probe cfg env)) = None ->
  res_udev (held (trace (usbd480_probe cfg env)))
  = (if dev_ok env then 1 else 0).
Proof.
  intros Hnone. pose proof (probe_observed cfg env) as H.
  rewrite Hnone in H. apply observe_parts in H.
  destruct H as (_ & _ & Hr & _). rewrite Hr. reflexivity.
Qed.

Lemma probe_failure_keeps_usb_reference_witness :
  res_udev (held (trace (usbd480_probe config32 env_no_pages))) = 1.
Proof.
  apply (probe_failure_keeps_usb_reference config32 env_no_pages eq_refl).
Defined.

(** X8.  A probe that leaves a session returns 0 and holds exactly: the
    four attribute files, the session structure, one reference to the USB
    device, the interface data, one block of pages at [vmem] of the order
    computed from [vmemsize], the [fb_info], the pseudo palette and the
    colour map; the framebuffer stored in the session is the one
    registered (when [register_framebuffer] returned 0), and one refresh
    cycle is pending on a live worker thread. *)
Theorem probe_success_holds cfg env d :
  snd (value (usbd480_probe cfg env)) = Some d ->
  let t := trace (usbd480_probe cfg env) in
  fst (value (usbd480_probe cfg env)) = 0 /\
  attribute_files t
  = [dev_attr_name; dev_attr_height; dev_attr_width; dev_attr_brightness] /\
  held t
  = mk_resources 1 1 true 0 [(vmem d, USBD480_VIDEOMEMORDER cfg d)] 1 1 1 /\
  registered_framebuffers t
  = match fbinfo d with
    | Some info => if register_ret env =? 0 then [info] else []
    | None => []
    end /\
  fbinfo d <> None /\
  sched_after sched_none t = mk_sched true false true.
Proof.
  intros Hsome. pose proof (probe_observed cfg env) as H.
  rewrite Hsome in H. destruct H as [H0 H]. apply observe_parts in H.
  destruct H as (Ha & Hf & Hr & Hs). cbv zeta.
  repeat split; try assumption.
  apply (probe_session_fbinfo cfg env d Hsome).
Qed.

Lemma probe_success_holds_witness :
  held (trace (usbd480_probe config32 env_480x272))
  = mk_resources 1 1 true 0
      [(vmem session_480x272, USBD480_VIDEOMEMORDER config32 session_480x272)]
      1 1 1 /\
  sched_after sched_none (trace (usbd480_probe config32 env_480x272))
  = mk_sched true false true.
Proof.
  destruct (probe_success_holds config32 env_480x272 session_480x272 eq_refl)
    as (_ & _ & Hr & _ & _ & Hs).
  split; [exact Hr | exact Hs].
Defined.

Ltac contra :=
  exfalso;
  repeat match goal with
         | H : (_ =? 0) = true |- _ => apply Z.eqb_eq in H
         | H : (_ =? 0) = false |- _ => apply Z.eqb_neq in H
         | H : (_ <? 0) = true |- _ => apply Z.ltb_lt in H
         | H : (_ <? 0) = false |- _ => apply Z.ltb_ge in H
         end;
  unfold ENOMEM in *; first [congruence | lia].

(** X9.  The probe returns 0 while leaving no session in exactly one
    case: the session, its attribute files and the pages were obtained
    and [framebuffer_alloc] failed.  On that path the return value is not
    set before the jump to the error labels; every other failure returns
    a nonzero code. *)
Theorem probe_zero_without_session cfg env :
  value (usbd480_probe cfg env) = (0, None) <->
  dev_ok env = true /\
  (forall a, create_file_ret env a = 0) /\
  pages_addr env <> 0 /\
  fballoc_ok env = false.
Proof.
  remember (usbd480_probe cfg env) as r eqn:E.
  probe_cases E.
  all: subst r; cbn [value fst]; split.
  all: try (intros Heq; injection Heq; intros; contra).
  all: try (intros (Hd & Hc & Hp & Hf); contra).
  - intros _. split; [reflexivity|]. split.
    + intros a; destruct a; apply Z.eqb_eq; assumption.
    + split; [apply Z.eqb_neq; assumption | reflexivity].
  - intros (_ & Hc & _ & _). rewrite Hc. reflexivity.
Qed.

Lemma probe_zero_without_session_witness :
  value (usbd480_probe config32 env_no_fb_info) = (0, None).
Proof.
  apply (proj2 (probe_zero_without_session config32 env_no_fb_info)).
  split; [reflexivity|]. split; [reflexivity|].
  split; [discriminate | reflexivity].
Defined.

(** X10.  When the creation of an attribute file fails, the probe returns
    the code of the first creation that failed, leaves no session, has
    made no control or bulk transfer and holds no pages, and no attribute
    file is left. *)
Theorem attribute_failure_before_device cfg env :
  dev_ok env = true ->
  (exists a, create_file_ret env a <> 0) ->
  let p := usbd480_probe cfg env in
  snd (value p) = None /\
  fst (value p) <> 0 /\
  find (fun r => negb (r =? 0))
       (map (create_file_ret env)
            [dev_attr_brightness; dev_attr_width; dev_attr_height; dev_attr_name])
  = Some (fst (value p)) /\
  count_events is_device_io (trace p) = 0%nat /\
  res_pages (held (trace p)) = [] /\
  attribute_files (trace p) = [].
Proof.
  intros Hd [a Ha]. cbv zeta.
  assert (Hmain :
            snd (value (usbd480_probe cfg env)) = None /\
            fst (value (usbd480_probe cfg env)) <> 0 /\
            find (fun r => negb (r =? 0))
                 (map (create_file_ret env)
                      [dev_attr_brightness; dev_attr_width; dev_attr_height;
                       dev_attr_name])
            = Some (fst (value (usbd480_probe cfg env))) /\
            count_events is_device_io (trace (usbd480_probe cfg env)) = 0%nat).
  { remember (usbd480_probe cfg env) as r eqn:E.
    probe_cases E.
    all: subst r; cbn [value trace fst snd].
    all: try discriminate Hd.
    all: try (exfalso; destruct a; contra).
    all: split; [reflexivity|];
      split; [apply Z.eqb_neq; assumption|];
      split; [cbn [find map]; use_tests; cbn [negb]; reflexivity
             | reflexivity]. }
  destruct Hmain as (Hnone & Hret & Hfind & Hio).
  pose proof (probe_observed cfg env) as Ho. rewrite Hnone in Ho.
  apply observe_parts in Ho. destruct Ho as (Hattr & _ & Hr & _).
  repeat split; try assumption.
  rewrite Hr. reflexivity.
Qed.

Lemma attribute_failure_before_device_witness :
  snd (value (usbd480_probe config32 env_height_fails)) = None /\
  find (fun r => negb (r =? 0))
       (map (create_file_ret env_height_fails)
            [dev_attr_brightness; dev_attr_width; dev_attr_height; dev_attr_name])
  = Some (fst (value (usbd480_probe config32 env_height_fails))) /\
  count_events is_device_io (trace (usbd480_probe config32 env_height_fails))
  = 0%nat.
Proof.
  assert (Hex : exists a, create_file_ret env_height_fails a <> 0)
    by (exists dev_attr_height; discriminate).
  destruct (attribute_failure_before_device config32 env_height_fails
              eq_refl Hex)
    as (Hnone & _ & Hfind & Hio & _).
  split; [exact Hnone|]. split; [exact Hfind | exact Hio].
Defined.

(** X11.  The framebuffer that a successful probe stores in the session
    describes the frame memory: its base is [vmem], its physical start
    the translation of [vmem], its length and screen size [vmemsize]; the
    visible and virtual resolution are width by height at 16 bits per
    pixel in 5-6-5 layout, one line is [2 * width] bytes, and the length
    is the line length times the height modulo 2^32. *)
Theorem probe_framebuffer_geometry cfg env d :
  snd (value (usbd480_probe cfg env)) = Some d ->
  exists info,
    fbinfo d = Some info /\
    screen_base info = vmem d /\
    smem_start info = virt_to_phys cfg (vmem d) /\
    vmem_phys d = virt_to_phys cfg (vmem d) /\
    screen_size info = vmemsize d /\
    smem_len info = vmemsize d /\
    xres info = width d /\ yres info = height d /\
    xres_virtual info = width d /\ yres_virtual info = height d /\
    line_length info = 2 * width d /\
    bits_per_pixel info = 16 /\
    red info = (11, 5) /\ green info = (5, 6) /\ blue info = (0, 5) /\
    pseudo_palette info = true /\
    smem_len info = (line_length info * yres info) mod 2 ^ 32.
Proof.
  intros Hsome.
  destruct (probe_establishes cfg env d Hsome) as (_ & Hs & _ & _ & Hw & Hh).
  apply probe_alive, probe_from_details_alive in Hsome. cbv zeta in Hsome.
  set (d0 := value (probe_discover env (set_udev true zeroed_usbd480))) in *.
  subst d. eexists. split; [reflexivity|].
  cbn [screen_base smem_start screen_size smem_len xres yres xres_virtual
       yres_virtual line_length bits_per_pixel red green blue pseudo_palette
       set_pseudo_palette probe_fb_info
       vmem vmem_phys vmemsize width height
       set_wq set_disp_page set_fbinfo set_vmem_phys set_vmem] in *.
  assert (Hll : to_uint (to_uint (width d0 * 16) / 8) = 2 * width d0).
  { rewrite (to_uint_small (width d0 * 16))
      by (change (2 ^ 32) with 4294967296; lia).
    replace (width d0 * 16) with (2 * width d0 * 8) by lia.
    rewrite Z.div_mul by lia.
    apply to_uint_small. change (2 ^ 32) with 4294967296. lia. }
  assert (Hsl : to_uint (vmemsize d0) = vmemsize d0).
  { rewrite Hs. unfold to_uint. apply Z.mod_mod. lia. }
  rewrite Hll, Hsl. repeat split.
  rewrite Hs. f_equal. lia.
Qed.

Lemma probe_framebuffer_geometry_witness :
  exists info,
    fbinfo session_480x272 = Some info /\
    line_length info = 2 * 480 /\
    smem_len info = (line_length info * yres info) mod 2 ^ 32.
Proof.
  destruct (probe_framebuffer_geometry config32 env_480x272 session_480x272
              eq_refl) as (info & Hi & H).
  exists info. split; [exact Hi|].
  decompose [and] H. split; assumption.
Defined.

(** ** More on the control transfers and the refresh cycles *)

(** The two halves of an address request give the offset modulo 2^32. *)
Lemma halves_address_mod addr :
  to_u16 addr + 65536 * to_u16 (Z.shiftr addr 16) = addr mod 2 ^ 32.
Proof.
  unfold to_u16. rewrite Z.shiftr_div_pow2 by lia.
  change (2 ^ 32) with (2 ^ 16 * 2 ^ 16).
  rewrite Z.rem_mul_r by lia. reflexivity.
Qed.

Lemma addresses_app request t1 t2 :
  addresses request (t1 ++ t2) = addresses request t1 ++ addresses request t2.
Proof.
  induction t1 as [|e t1 IH]; [reflexivity|].
  cbn [app addresses]. destruct (request_address request e); rewrite IH;
    reflexivity.
Qed.

Lemma addresses_dbg request r : addresses request (dbg r) = [].
Proof. unfold dbg. destruct (r =? 0); reflexivity. Qed.

Lemma bulk_transfers_app t1 t2 :
  bulk_transfers (t1 ++ t2) = bulk_transfers t1 ++ bulk_transfers t2.
Proof.
  induction t1 as [|e t1 IH]; [reflexivity|].
  cbn [app bulk_transfers]. destruct e; rewrite ?IH; reflexivity.
Qed.

Lemma bulk_transfers_dbg r : bulk_transfers (dbg r) = [].
Proof. unfold dbg. destruct (r =? 0); reflexivity. Qed.

Lemma count_events_app p t1 t2 :
  count_events p (t1 ++ t2) = (count_events p t1 + count_events p t2)%nat.
Proof. unfold count_events. rewrite filter_app. apply length_app. Qed.

Lemma count_device_io_dbg r : count_events is_device_io (dbg r) = 0%nat.
Proof. unfold dbg. destruct (r =? 0); reflexivity. Qed.

(** X12.  [usbd480_set_address] and [usbd480_set_frame_start_address]
    return 0 whatever the transfer returned, make exactly one control
    transfer, and carry the offset in the two 16-bit halves of the
    request so that the device reads back the offset modulo 2^32; the
    request of the one is never taken for the other. *)
Theorem address_requests_round_trip result dev addr :
  value (usbd480_set_address result dev addr) = 0 /\
  value (usbd480_set_frame_start_address result dev addr) = 0 /\
  addresses USBD480_SET_ADDRESS (trace (usbd480_set_address result dev addr))
  = [addr mod 2 ^ 32] /\
  addresses USBD480_SET_FRAME_START_ADDRESS
            (trace (usbd480_set_frame_start_address result dev addr))
  = [addr mod 2 ^ 32] /\
  addresses USBD480_SET_FRAME_START_ADDRESS
            (trace (usbd480_set_address result dev addr)) = [] /\
  addresses USBD480_SET_ADDRESS
            (trace (usbd480_set_frame_start_address result dev addr)) = [] /\
  count_events is_device_io (trace (usbd480_set_address result dev addr))
  = 1%nat /\
  count_events is_device_io
               (trace (usbd480_set_frame_start_address result dev addr))
  = 1%nat.
Proof.
  unfold usbd480_set_address, usbd480_set_frame_start_address.
  destruct (result =? 0);
    cbn [bind emit ret value trace fst snd app addresses request_address];
    rewrite ?Z.eqb_refl;
    change (USBD480_SET_ADDRESS =? USBD480_SET_FRAME_START_ADDRESS) with false;
    change (USBD480_SET_FRAME_START_ADDRESS =? USBD480_SET_ADDRESS) with false;
    cbn [addresses request_address];
    rewrite halves_address_mod; repeat split.
Qed.

Lemma usbd480fb_work_io cfg env d :
  let t := trace (usbd480fb_work cfg env d) in
  bulk_transfers t = [(vmem d, to_int (vmemsize d))] /\
  addresses USBD480_SET_ADDRESS t = [cycle_offset d] /\
  addresses USBD480_SET_FRAME_START_ADDRESS t = [cycle_offset d] /\
  count_events is_device_io t = 3%nat.
Proof.
  cbv zeta. rewrite usbd480fb_work_eq. cbn [trace snd].
  pose proof (halves_address _ (cycle_offset_range d)) as Hh.
  repeat split.
  - rewrite !bulk_transfers_app, !bulk_transfers_dbg. reflexivity.
  - rewrite !addresses_app, !addresses_dbg.
    cbn [addresses request_address set_write_address set_show_address app].
    rewrite Z.eqb_refl.
    change (USBD480_SET_FRAME_START_ADDRESS =? USBD480_SET_ADDRESS) with false.
    cbv iota. rewrite Hh. reflexivity.
  - rewrite !addresses_app, !addresses_dbg.
    cbn [addresses request_address set_write_address set_show_address app].
    rewrite Z.eqb_refl.
    change (USBD480_SET_ADDRESS =? USBD480_SET_FRAME_START_ADDRESS) with false.
    cbv iota. rewrite Hh. reflexivity.
  - rewrite !count_events_app, !count_device_io_dbg. reflexivity.
Qed.

(** A cycle acquires and releases nothing, and leaves the work pending. *)
Lemma view_work cfg env d a f r ex al :
  fold_left view_step (trace (usbd480fb_work cfg env d))
            (a, f, r, mk_sched true ex al)
  = (a, f, r, mk_sched true ex al).
Proof.
  rewrite usbd480fb_work_eq. cbn [trace snd]. unfold dbg.
  destruct (set_address_result env =? 0);
    destruct (set_frame_start_result env =? 0); reflexivity.
Qed.

Lemma view_run_cycles cfg env n :
  forall k d a f r ex al,
    fold_left view_step (trace (run_cycles cfg env k n d))
              (a, f, r, mk_sched true ex al)
    = (a, f, r, mk_sched true ex al).
Proof.
  induction n as [|n IH]; intros k d a f r ex al; [reflexivity|].
  cbn [run_cycles]. rewrite trace_bind, fold_left_app, view_work. apply IH.
Qed.

Lemma toggled_bit d : toggled d = 0 \/ toggled d = 1.
Proof. unfold toggled. destruct (disp_page d =? 0); auto. Qed.

Lemma run_cycles_io cfg env n :
  forall k d,
    disp_page d = 0 \/ disp_page d = 1 ->
    let t := trace (run_cycles cfg env k n d) in
    bulk_transfers t = repeat (vmem d, to_int (vmemsize d)) n /\
    addresses USBD480_SET_ADDRESS t
    = map (fun i => if Z.even (disp_page d + Z.of_nat i)
                    then 0 else to_uint (vmemsize d)) (seq 0 n) /\
    addresses USBD480_SET_FRAME_START_ADDRESS t
    = addresses USBD480_SET_ADDRESS t /\
    count_events is_device_io t = (3 * n)%nat.
Proof.
  induction n as [|n IH]; intros k d Hd; cbv zeta.
  - repeat split.
  - cbn [run_cycles]. rewrite trace_bind.
    destruct (usbd480fb_work_io cfg (env k) d) as (Hb & Hw & Hs & Hc).
    cbv zeta in Hb, Hw, Hs, Hc.
    rewrite usbd480fb_work_value.
    destruct (IH (S k) (set_disp_page (toggled d) d) (toggled_bit d))
      as (IHb & IHw & IHs & IHc).
    cbv zeta in IHb, IHw, IHs, IHc.
    cbn [disp_page vmem vmemsize set_disp_page] in IHb, IHw.
    rewrite bulk_transfers_app, !addresses_app, count_events_app.
    rewrite Hb, Hw, Hs, Hc, IHb, IHs, IHw, IHc.
    split; [reflexivity|]. split; [|split; [reflexivity | lia]].
    cbn [seq map app]. f_equal.
    + unfold cycle_offset. destruct Hd as [-> | ->]; reflexivity.
    + rewrite <- seq_shift, map_map. apply map_ext. intros i.
      rewrite Nat2Z.inj_succ.
      replace (disp_page d + Z.succ (Z.of_nat i))
        with (disp_page d + 1 + Z.of_nat i) by lia.
      rewrite (toggled_of_bit d Hd).
      rewrite !Z.even_add.
      destruct Hd as [-> | ->]; reflexivity.
Qed.

(** X13.  Over any number of consecutive cycles of a session whose page
    is 0 or 1, every cycle transfers the whole frame memory once, [vmem]
    with length [vmemsize]; the write offsets are alternately 0 and
    [vmemsize], starting with 0 from page 0; the show offsets are the
    same list; there are three transfers per cycle; and the cycles
    acquire and release nothing. *)
Theorem refresh_cycles_io cfg env k n d :
  disp_page d = 0 \/ disp_page d = 1 ->
  let t := trace (run_cycles cfg env k n d) in
  bulk_transfers t = repeat (vmem d, to_int (vmemsize d)) n /\
  addresses USBD480_SET_ADDRESS t
  = map (fun i => if Z.even (disp_page d + Z.of_nat i)
                  then 0 else to_uint (vmemsize d)) (seq 0 n) /\
  addresses USBD480_SET_FRAME_START_ADDRESS t
  = addresses USBD480_SET_ADDRESS t /\
  count_events is_device_io t = (3 * n)%nat /\
  (forall r, resources_after r t = r) /\
  (forall a, fold_left attr_step t a = a) /\
  (forall f, fold_left fb_step t f = f).
Proof.
  intros Hd. cbv zeta.
  destruct (run_cycles_io cfg env n k d Hd) as (Hb & Hw & Hs & Hc).
  cbv zeta in Hb, Hw, Hs, Hc.
  repeat split; try assumption.
  - intros r.
    pose proof (view_run_cycles cfg env n k d [] [] r false false) as H.
    rewrite observe_fold_from in H. injection H as _ _ H _. exact H.
  - intros a.
    pose proof (view_run_cycles cfg env n k d a [] no_resources false false) as H.
    rewrite observe_fold_from in H. injection H as H _ _ _. exact H.
  - intros f.
    pose proof (view_run_cycles cfg env n k d [] f no_resources false false) as H.
    rewrite observe_fold_from in H. injection H as _ H _ _. exact H.
Qed.

Lemma refresh_cycles_io_witness :
  addresses USBD480_SET_ADDRESS
            (trace (run_cycles config32 (fun _ => cycle_bulk_timeout) 0 4
                               session_480x272))
  = [0; 261120; 0; 261120] /\
  bulk_transfers (trace (run_cycles config32 (fun _ => cycle_bulk_timeout) 0 4
                                    session_480x272))
  = repeat (vmem session_480x272, 261120) 4.
Proof.
  destruct (refresh_cycles_io config32 (fun _ => cycle_bulk_timeout) 0 4
              session_480x272 (or_introl eq_refl))
    as (Hb & Hw & _).
  split; [exact Hw | exact Hb].
Defined.

(** X14.  After one cycle the page is 0 or 1 whatever it was; two cycles
    bring a session whose page is 0 or 1 back to itself; and from any
    session the state after three cycles is the state after one. *)
Theorem two_cycles_restore cfg e1 e2 e3 d :
  (disp_page (value (usbd480fb_work cfg e1 d)) = 0 \/
   disp_page (value (usbd480fb_work cfg e1 d)) = 1) /\
  (disp_page d = 0 \/ disp_page d = 1 ->
   value (usbd480fb_work cfg e2 (value (usbd480fb_work cfg e1 d))) = d) /\
  value (usbd480fb_work cfg e3
           (value (usbd480fb_work cfg e2 (value (usbd480fb_work cfg e1 d)))))
  = value (usbd480fb_work cfg e1 d).
Proof.
  rewrite !usbd480fb_work_value.
  split; [|split].
  - cbn [disp_page set_disp_page]. apply toggled_bit.
  - intros Hd. destruct d. cbn [disp_page] in Hd.
    unfold toggled. cbn [disp_page set_disp_page].
    destruct Hd; subst; reflexivity.
  - destruct d as [u fb w vm vs vp dp b wd h dn].
    unfold toggled. cbn [disp_page set_disp_page].
    destruct (dp =? 0); reflexivity.
Qed.

Lemma two_cycles_restore_witness :
  value (usbd480fb_work config32 cycle_bulk_timeout
           (value (usbd480fb_work config32 cycle_ok session_480x272)))
  = session_480x272.
Proof.
  destruct (two_cycles_restore config32 cycle_ok cycle_bulk_timeout cycle_ok
              session_480x272) as (_ & H & _).
  apply H. left. reflexivity.
Defined.

(** ** Attach, run, detach *)

Lemma attach_run_detach_eq cfg penv cenv n d :
  snd (value (usbd480_probe cfg penv)) = Some d ->
  attach_run_detach cfg penv cenv n
  = (fst (value (usbd480_probe cfg penv)),
     trace (usbd480_probe cfg penv)
     ++ trace (run_cycles cfg cenv 0 n d)
     ++ trace (usbd480_disconnect cfg (value (run_cycles cfg cenv 0 n d)))).
Proof.
  unfold attach_run_detach.
  destruct (usbd480_probe cfg penv) as [[rv alive] t1].
  cbn [value trace fst snd]. intros ->.
  unfold bind, ret.
  destruct (run_cycles cfg cenv 0 n d) as [d' t2].
  cbn [value trace fst snd].
  destruct (usbd480_disconnect cfg d') as [[] t3].
  cbn [value trace fst snd]. rewrite ?app_nil_r. reflexivity.
Qed.

(** What is observed after a whole session. *)
Lemma attach_run_detach_observed cfg penv cenv n d :
  snd (value (usbd480_probe cfg penv)) = Some d ->
  observe (trace (attach_run_detach cfg penv cenv n))
  = ([], [], mk_resources 0 0 false 0 [] 0 1 1, sched_none).
Proof.
  intros Hsome.
  rewrite (attach_run_detach_eq cfg penv cenv n d Hsome). cbn [trace snd].
  pose proof (probe_observed cfg penv) as Hp. rewrite Hsome in Hp.
  destruct Hp as [_ Hp]. rewrite observe_fold in Hp.
  rewrite observe_fold, !fold_left_app, Hp, view_run_cycles.
  pose proof (run_cycles_same_but_page cfg cenv n 0%nat d) as F.
  set (d' := value (run_cycles cfg cenv 0 n d)) in *.
  unfold same_but_page in F. decompose [and] F. clear F.
  assert (Hfb : exists info, fbinfo d = Some info).
  { pose proof (probe_session_fbinfo cfg penv d Hsome) as Hne.
    destruct (fbinfo d) as [info|]; [eauto | contradiction]. }
  destruct Hfb as [info Hinfo].
  pose proof (view_neutral_for_each_page cfg ClearPageReserved d'
                (fun _ => eq_refl)) as Hclr.
  rewrite usbd480_disconnect_trace.
  replace (fbinfo d') with (Some info) by congruence.
  replace (USBD480_VIDEOMEMORDER cfg d') with (USBD480_VIDEOMEMORDER cfg d)
    by (unfold USBD480_VIDEOMEMORDER; congruence).
  replace (vmem d') with (vmem d) by congruence.
  rewrite Hinfo.
  set (tC := trace (for_each_page cfg ClearPageReserved d')) in *.
  view_steps.
  destruct (register_ret penv =? 0); reflexivity.
Qed.

(** X15.  A session that was attached, ran any number of refresh cycles
    and was detached has given back what it held: no attribute file and
    no registered framebuffer is left, the pages, the session structure,
    the [fb_info], the reference to the USB device and the interface data
    are released, and the refresh task is stopped; the whole sequence
    reports the 0 of the probe. *)
Theorem attach_run_detach_releases cfg penv cenv n d :
  snd (value (usbd480_probe cfg penv)) = Some d ->
  let t := trace (attach_run_detach cfg penv cenv n) in
  value (attach_run_detach cfg penv cenv n) = 0 /\
  attribute_files t = [] /\
  registered_framebuffers t = [] /\
  res_pages (held t) = [] /\
  res_session (held t) = 0 /\
  res_udev (held t) = 0 /\
  res_intfdata (held t) = false /\
  res_buffer (held t) = 0 /\
  res_fb_info (held t) = 0 /\
  stopped (sched_after sched_none t) = true.
Proof.
  intros Hsome. cbv zeta.
  pose proof (attach_run_detach_observed cfg penv cenv n d Hsome) as H.
  apply observe_parts in H. destruct H as (Ha & Hf & Hr & Hs).
  rewrite Ha, Hf, Hr, Hs. split; [|repeat split].
  rewrite (attach_run_detach_eq cfg penv cenv n d Hsome). cbn [value fst].
  apply (probe_session_zero cfg penv d Hsome).
Qed.

Lemma attach_run_detach_releases_witness :
  value (attach_run_detach config32 env_480x272 (fun _ => cycle_ok) 3) = 0 /\
  res_pages (held (trace (attach_run_detach config32 env_480x272
                            (fun _ => cycle_ok) 3))) = [] /\
  res_udev (held (trace (attach_run_detach config32 env_480x272
                           (fun _ => cycle_ok) 3))) = 0.
Proof.
  destruct (attach_run_detach_releases config32 env_480x272
              (fun _ => cycle_ok) 3 session_480x272 eq_refl)
    as (Hv & _ & _ & Hp & _ & Hu & _).
  split; [exact Hv|]. split; [exact Hp | exact Hu].
Defined.

(** X16.  Detach does not free the pseudo palette nor the colour map that
    the probe allocated: after attach, any number of cycles and detach,
    one pseudo palette and one colour map are still held. *)
Theorem detach_keeps_palette_and_cmap cfg penv cenv n d :
  snd (value (usbd480_probe cfg penv)) = Some d ->
  res_palette (held (trace (attach_run_detach cfg penv cenv n))) = 1 /\
  res_cmap (held (trace (attach_run_detach cfg penv cenv n))) = 1.
Proof.
  intros Hsome.
  pose proof (attach_run_detach_observed cfg penv cenv n d Hsome) as H.
  apply observe_parts in H. destruct H as (_ & _ & Hr & _).
  rewrite Hr. split; reflexivity.
Qed.

Lemma detach_keeps_palette_and_cmap_witness :
  res_palette (held (trace (attach_run_detach config32 env_480x272
                              (fun _ => cycle_ok) 2))) = 1 /\
  res_cmap (held (trace (attach_run_detach config32 env_480x272
                           (fun _ => cycle_ok) 2))) = 1.
Proof.
  apply (detach_keeps_palette_and_cmap config32 env_480x272
           (fun _ => cycle_ok) 2 session_480x272 eq_refl).
Defined.

(** ** Discovery and the refresh interval *)

(** X17.  Discovery writes only width, height and name: every other field
    of the session, [vmemsize] included, is as before; what it writes
    depends on the response alone, so a second discovery with the same
    response changes nothing. *)
Theorem discovery_frame env d :
  let d1 := snd (value (usbd480_get_device_details env d)) in
  udev d1 = udev d /\ fbinfo d1 = fbinfo d /\ wq d1 = wq d /\
  vmem d1 = vmem d /\ vmemsize d1 = vmemsize d /\
  vmem_phys d1 = vmem_phys d /\ disp_page d1 = disp_page d /\
  brightness d1 = brightness d /\
  snd (value (usbd480_get_device_details env d1)) = d1 /\
  (forall d2,
     buffer_ok env = true ->
     let d3 := snd (value (usbd480_get_device_details env d2)) in
     width d3 = width d1 /\ height d3 = height d1 /\
     device_name d3 = device_name d1).
Proof.
  cbv zeta.
  assert (Hany : forall d2,
             buffer_ok env = true ->
             snd (value (usbd480_get_device_details env d2))
             = set_device_name (strncpy (details_buffer env) 20)
                 (set_height (le16 (details_buffer env) 22)
                    (set_width (le16 (details_buffer env) 20) d2))).
  { intros d2 Hb. rewrite usbd480_get_device_details_eq, Hb. reflexivity. }
  destruct (buffer_ok env) eqn:Hb.
  - rewrite !Hany by reflexivity. destruct d.
    repeat (split; [reflexivity|]).
    intros d2 _. rewrite Hany by reflexivity. destruct d2.
    repeat split.
  - rewrite !usbd480_get_device_details_eq, !Hb. cbn [value fst snd].
    repeat (split; [reflexivity|]). discriminate.
Qed.

Lemma discovery_frame_witness :
  width (snd (value (usbd480_get_device_details (details env_480x272)
                       session_49152x43691)))
  = width (snd (value (usbd480_get_device_details (details env_480x272)
                         zeroed_usbd480))).
Proof.
  destruct (discovery_frame (details env_480x272) zeroed_usbd480)
    as (_ & _ & _ & _ & _ & _ & _ & _ & _ & H).
  apply (H session_49152x43691 eq_refl).
Defined.

Lemma probe_success_queues cfg env d :
  snd (value (usbd480_probe cfg env)) = Some d ->
  In (queue_delayed_work (to_int (USBD480_REFRESH_JIFFIES cfg * 4)))
     (trace (usbd480_probe cfg env)).
Proof.
  remember (usbd480_probe cfg env) as r eqn:E. probe_cases E.
  all: subst r; cbn [value trace fst snd]; try discriminate.
  intros _.
  repeat first [ rewrite in_app_iff | progress cbn [In app] ].
  intuition auto.
Qed.

(** X18.  With a tick rate between 0 and 214748364 the refresh interval
    is [HZ / 100] ticks, so it is 0 below 100 ticks per second; each
    cycle ends by queueing the next one after that interval, and the
    first cycle is queued by the probe after four times the interval. *)
Theorem refresh_interval cfg env d :
  0 <= HZ cfg <= 214748364 ->
  USBD480_REFRESH_JIFFIES cfg = HZ cfg / 100 /\
  (HZ cfg < 100 -> USBD480_REFRESH_JIFFIES cfg = 0) /\
  last (trace (usbd480fb_work cfg env d)) kfree_dev
  = queue_delayed_work (HZ cfg / 100) /\
  (forall penv session,
     snd (value (usbd480_probe cfg penv)) = Some session ->
     In (queue_delayed_work (4 * (HZ cfg / 100)))
        (trace (usbd480_probe cfg penv))).
Proof.
  intros Hhz.
  assert (HJ : USBD480_REFRESH_JIFFIES cfg = HZ cfg / 100).
  { unfold USBD480_REFRESH_JIFFIES.
    change (Z.quot 1000 100) with 10.
    rewrite (to_int_small (10 * HZ cfg))
      by (change (2 ^ 31) with 2147483648; lia).
    rewrite Z.quot_div_nonneg by lia.
    assert (E : 10 * HZ cfg / 1000 = HZ cfg / 100).
    { replace 1000 with (10 * 100) by lia.
      rewrite Z.div_mul_cancel_l by lia. reflexivity. }
    rewrite E. apply to_int_small.
    change (2 ^ 31) with 2147483648.
    split; [apply Z.div_pos; lia|].
    apply Z.div_lt_upper_bound; lia. }
  assert (Hq : 0 <= HZ cfg / 100 <= 2147483).
  { split; [apply Z.div_pos; lia|].
    enough (HZ cfg / 100 < 2147484) by lia.
    apply Z.div_lt_upper_bound; lia. }
  split; [exact HJ|]. split; [|split].
  - intros Hlt. rewrite HJ. apply Z.div_small. lia.
  - rewrite usbd480fb_work_eq. cbn [trace snd]. rewrite HJ.
    rewrite !app_assoc. apply last_last.
  - intros penv session Hsome.
    pose proof (probe_success_queues cfg penv session Hsome) as Hin.
    rewrite HJ in Hin.
    rewrite to_int_small in Hin by (change (2 ^ 31) with 2147483648; lia).
    replace (4 * (HZ cfg / 100)) with (HZ cfg / 100 * 4) by lia.
    exact Hin.
Qed.

Lemma refresh_interval_witness :
  USBD480_REFRESH_JIFFIES config32 = 2 /\
  In (queue_delayed_work 8) (trace (usbd480_probe config32 env_480x272)).
Proof.
  destruct (refresh_interval config32 cycle_ok session_480x272)
    as (HJ & _ & _ & H4).
  - vm_compute. split; discriminate.
  - split; [exact HJ | exact (H4 env_480x272 session_480x272 eq_refl)].
Defined.
